(** * The Xcode build server: build and test execution pipeline

    A shallow embedding of [src/build/index.js] (class [XcodeBuildServer]):
    command construction, process execution with output capture, line
    decoding and filtering, artifact persistence, result-bundle
    post-processing and the latest-log resource.

    Conventions of the embedding.
    - A JavaScript string is a [string]; each [ascii] stands for one code
      unit in the range 0..255.
    - A JavaScript value produced by [JSON.parse], or a plain line kept as
      text, is a [JSValue]; [undefined] is [None].
    - [async] functions run to completion one after the other; they are
      state transformers over the file system, the list of commands run and
      the list of files written, and return either a value or a thrown
      value.
    - [fs.writeFile] and [fs.mkdir] can fail: the file system carries the
      set of paths it refuses.
    - The clock is an argument: [now] is what [new Date().toISOString()]
      yields when an invocation starts.
    - [JSON.parse], [JSON.stringify] and [child_process.exec] belong to the
      runtime: they are the operations of the class [Runtime].  Results are
      proved for every runtime; [Reference.node] is an executable one used to
      evaluate the model on concrete inputs.
    - [console.error] diagnostics are not part of the model. *)

From Stdlib Require Import String Ascii List Bool Arith Lia.
From stdpp Require Import base option gmap strings.

Set Warnings "-register-all".

(** ** JavaScript string primitives used by the server *)

Module JS.

Definition LF : ascii := "010"%char.
Definition CR : ascii := "013"%char.
Definition DQ : ascii := "034"%char.

(** [s.startsWith(p)] *)
Fixpoint startsWith (s p : string) {struct p} : bool :=
  match p with
  | EmptyString => true
  | String a p' =>
      match s with
      | EmptyString => false
      | String b s' => Ascii.eqb a b && startsWith s' p'
      end
  end.

(** [s.includes(sub)] *)
Fixpoint includes (s sub : string) : bool :=
  startsWith s sub ||
  match s with
  | EmptyString => false
  | String _ s' => includes s' sub
  end.

(** [s.split(sep)] for a one-character separator. *)
Fixpoint split (sep : ascii) (s : string) : list string :=
  match s with
  | EmptyString => [EmptyString]
  | String c s' =>
      if Ascii.eqb c sep then EmptyString :: split sep s'
      else match split sep s' with
           | h :: t => String c h :: t
           | [] => [String c EmptyString]
           end
  end.

(** White space and line terminators of ECMAScript below code 256:
    TAB, LF, VT, FF, CR, SP and NBSP. *)
Definition isWhiteSpace (c : ascii) : bool :=
  existsb (Nat.eqb (nat_of_ascii c)) [9; 10; 11; 12; 13; 32; 160].

Fixpoint trimStart (s : string) : string :=
  match s with
  | EmptyString => EmptyString
  | String c s' => if isWhiteSpace c then trimStart s' else s
  end.

Fixpoint trimEnd (s : string) : string :=
  match s with
  | EmptyString => EmptyString
  | String c s' =>
      match trimEnd s' with
      | EmptyString => if isWhiteSpace c then EmptyString else String c EmptyString
      | t => String c t
      end
  end.

(** [s.trim()] *)
Definition trim (s : string) : string := trimEnd (trimStart s).

(** A line without a visible character: every code unit is white space. *)
Definition isBlank (s : string) : bool :=
  forallb isWhiteSpace (list_ascii_of_string s).

(** ToBoolean of a string: only the empty string is falsy. *)
Definition truthy (s : string) : bool :=
  match s with
  | EmptyString => false
  | String _ _ => true
  end.

(** [l.join(sep)] on an array of strings. *)
Fixpoint join (sep : string) (l : list string) : string :=
  match l with
  | [] => EmptyString
  | [x] => x
  | x :: rest => x +:+ sep +:+ join sep rest
  end.

(** [s.at(-1)], the last code unit. *)
Fixpoint last (s : string) : option ascii :=
  match s with
  | EmptyString => None
  | String c EmptyString => Some c
  | String _ s' => last s'
  end.

(** [s.replace(/[:.]/g, '-')] *)
Fixpoint replaceColonPeriod (s : string) : string :=
  match s with
  | EmptyString => EmptyString
  | String c s' =>
      String (if Ascii.eqb c ":"%char || Ascii.eqb c "."%char then "-"%char else c)
             (replaceColonPeriod s')
  end.

End JS.

(** ** Regular expressions, matched from the start of the subject

    Enough of the RegExp language for the one pattern of the source,
    [/^\/.+:\d+:\d+: error:/], matched by Brzozowski derivatives. *)

Module Regex.

Inductive re : Type :=
| Void                      (* matches nothing *)
| Eps                       (* the empty string *)
| Chr (c : ascii)           (* a literal character *)
| Dot                       (* [.]: any character but a line terminator *)
| Digit                     (* [\d] *)
| Cat (r1 r2 : re)
| Alt (r1 r2 : re)
| Star (r : re).

Definition Plus (r : re) : re := Cat r (Star r).

Fixpoint lit (s : string) : re :=
  match s with
  | EmptyString => Eps
  | String c s' => Cat (Chr c) (lit s')
  end.

Fixpoint nullable (r : re) : bool :=
  match r with
  | Void | Chr _ | Dot | Digit => false
  | Eps | Star _ => true
  | Cat r1 r2 => nullable r1 && nullable r2
  | Alt r1 r2 => nullable r1 || nullable r2
  end.

Definition isDigit (c : ascii) : bool :=
  let n := nat_of_ascii c in (48 <=? n) && (n <=? 57).

Definition isLineTerminator (c : ascii) : bool :=
  Ascii.eqb c JS.LF || Ascii.eqb c JS.CR.

Fixpoint deriv (c : ascii) (r : re) : re :=
  match r with
  | Void | Eps => Void
  | Chr d => if Ascii.eqb c d then Eps else Void
  | Dot => if isLineTerminator c then Void else Eps
  | Digit => if isDigit c then Eps else Void
  | Cat r1 r2 =>
      if nullable r1 then Alt (Cat (deriv c r1) r2) (deriv c r2)
      else Cat (deriv c r1) r2
  | Alt r1 r2 => Alt (deriv c r1) (deriv c r2)
  | Star r1 => Cat (deriv c r1) (Star r1)
  end.

(** [s.match(/^r/)] is not null: some prefix of [s] is in the language
    of [r]. *)
Fixpoint matchesPrefix (r : re) (s : string) : bool :=
  nullable r ||
  match s with
  | EmptyString => false
  | String c s' => matchesPrefix (deriv c r) s'
  end.

(** The language of a regular expression. *)
Inductive lang : re -> string -> Prop :=
| lang_eps : lang Eps EmptyString
| lang_chr c : lang (Chr c) (String c EmptyString)
| lang_dot c : isLineTerminator c = false -> lang Dot (String c EmptyString)
| lang_digit c : isDigit c = true -> lang Digit (String c EmptyString)
| lang_cat r1 r2 s1 s2 : lang r1 s1 -> lang r2 s2 -> lang (Cat r1 r2) (s1 +:+ s2)
| lang_alt_l r1 r2 s : lang r1 s -> lang (Alt r1 r2) s
| lang_alt_r r1 r2 s : lang r2 s -> lang (Alt r1 r2) s
| lang_star_nil r : lang (Star r) EmptyString
| lang_star_cons r s1 s2 : lang r s1 -> lang (Star r) s2 -> lang (Star r) (s1 +:+ s2).

End Regex.

(** ** JavaScript values decoded from JSON text *)

Inductive JSValue : Type :=
| JNull
| JBool (b : bool)
| JNumber (literal : string)
| JString (s : string)
| JArray (items : list JSValue)
| JObject (fields : list (string * JSValue)).

Inductive JSType : Type := TObject | TBoolean | TNumber | TString.

(** The [typeof] operator: [null] and arrays are objects. *)
Definition typeof (v : JSValue) : JSType :=
  match v with
  | JNull | JArray _ | JObject _ => TObject
  | JBool _ => TBoolean
  | JNumber _ => TNumber
  | JString _ => TString
  end.

Fixpoint assoc (k : string) (fields : list (string * JSValue)) : option JSValue :=
  match fields with
  | [] => None
  | (k', v) :: rest => if String.eqb k k' then Some v else assoc k rest
  end.

(** Property read [v?.k] for a name [k] that no prototype defines (the
    source reads [type], [diagnostic], [severity] and the argument names):
    only an object literal has such a property; every other receiver,
    [null] and [undefined] included, yields [undefined]. *)
Definition prop (k : string) (v : JSValue) : option JSValue :=
  match v with
  | JObject fields => assoc k fields
  | _ => None
  end.

(** [v === s] for a string literal [s]. *)
Definition isStr (v : option JSValue) (s : string) : bool :=
  match v with
  | Some (JString t) => String.eqb t s
  | _ => false
  end.

(** ** [path.join] and [path.dirname] of Node (POSIX flavour)

    Both belong to the runtime; they follow [lib/path.js] of Node, with
    [normalizeString] taken segment by segment. *)

Module path.

Definition SLASH : ascii := "/"%char.

(** [normalizeString], segment by segment: empty and [.] segments vanish,
    [..] removes the segment before it, or stays when there is none to
    remove and the path is relative. [acc] is the result so far, last
    segment first. *)
Fixpoint normalizeSegments (allowAboveRoot : bool) (acc segs : list string)
  : list string :=
  match segs with
  | [] => rev acc
  | s :: rest =>
      if String.eqb s EmptyString || String.eqb s "." then
        normalizeSegments allowAboveRoot acc rest
      else if String.eqb s ".." then
        match acc with
        | top :: acc' =>
            if String.eqb top ".." then
              normalizeSegments allowAboveRoot
                (if allowAboveRoot then ".." :: acc else acc) rest
            else normalizeSegments allowAboveRoot acc' rest
        | [] =>
            normalizeSegments allowAboveRoot
              (if allowAboveRoot then [".."] else []) rest
        end
      else normalizeSegments allowAboveRoot (s :: acc) rest
  end.

Fixpoint endsWithSlash (p : string) : bool :=
  match p with
  | EmptyString => false
  | String c EmptyString => Ascii.eqb c SLASH
  | String _ p' => endsWithSlash p'
  end.

Definition normalize (p : string) : string :=
  match p with
  | EmptyString => "."
  | String c _ =>
      let isAbsolute := Ascii.eqb c SLASH in
      let trailingSeparator := endsWithSlash p in
      match JS.join "/" (normalizeSegments (negb isAbsolute) [] (JS.split SLASH p)) with
      | EmptyString =>
          if isAbsolute then "/" else if trailingSeparator then "./" else "."
      | p' =>
          let p'' := if trailingSeparator then p' +:+ "/" else p' in
          if isAbsolute then "/" +:+ p'' else p''
      end
  end.

(** [path.join(...parts)] *)
Definition join (parts : list string) : string :=
  match List.filter JS.truthy parts with
  | [] => "."
  | joined => normalize (JS.join "/" joined)
  end.

Fixpoint dropSlashes (l : list ascii) : list ascii :=
  match l with
  | c :: l' => if Ascii.eqb c SLASH then dropSlashes l' else l
  | [] => []
  end.

Fixpoint afterSlash (l : list ascii) : option (list ascii) :=
  match l with
  | [] => None
  | c :: l' => if Ascii.eqb c SLASH then Some l' else afterSlash l'
  end.

(** [path.dirname(p)]: the scan runs from the end of [p] down to index 1,
    over trailing slashes, then over the base name, to the slash before
    it. *)
Definition dirname (p : string) : string :=
  match p with
  | EmptyString => "."
  | String c rest =>
      let hasRoot := Ascii.eqb c SLASH in
      match afterSlash (dropSlashes (rev (list_ascii_of_string rest))) with
      | None => if hasRoot then "/" else "."
      | Some [] => if hasRoot then "//" else String c EmptyString
      | Some kept => String c (string_of_list_ascii (rev kept))
      end
  end.

End path.

(** ** The runtime: errors, child processes, the file system *)

Inductive ErrorCode : Type :=
| InvalidRequest | MethodNotFound | InvalidParams | InternalError.

(** An instance of [Error]: its [message], the [stderr] that
    [child_process.exec] attaches to a failure, and the [code] of an
    [McpError]. *)
Record JSError : Type := mkError {
  message : string;
  stderr : option string;
  code : option ErrorCode
}.

(** What a [throw] or a rejected promise carries: an [Error], or any other
    value. *)
Inductive Thrown : Type :=
| ThrownError (e : JSError)
| ThrownValue (v : JSValue).

Inductive ExecResult : Type :=
| Resolved (stdout stderr : string)
| Rejected (error : Thrown).

(** Regular files with their text, directories, and the paths the system
    refuses to create or write. *)
Record FS : Type := mkFS {
  files : gmap string string;
  dirs : gset string;
  unwritable : gset string
}.

Class Runtime : Type := {
  (** [JSON.parse(text)]; [None] when it throws. *)
  JSON_parse : string -> option JSValue;
  (** [JSON.stringify(value, null, indent)]. *)
  JSON_stringify : nat -> JSValue -> string;
  (** [promisify(exec)(command, options)]: the result of the child process
      and what it did to the file system. *)
  exec : string -> FS -> ExecResult * FS
}.

(** The state an [async] function runs in: the file system, the commands
    handed to [exec] so far and the files written by [writeFile] so far with
    their text, oldest first. *)
Record State : Type := mkState {
  fs : FS;
  executed : list string;
  written : list (string * string)
}.

Inductive Outcome (A : Type) : Type :=
| Return (a : A)
| Throw (t : Thrown).
Arguments Return {A} a.
Arguments Throw {A} t.

Definition M (A : Type) : Type := State -> Outcome A * State.

Definition ret {A} (a : A) : M A := fun st => (Return a, st).

Definition throw {A} (t : Thrown) : M A := fun st => (Throw t, st).

Definition bind {A B} (m : M A) (k : A -> M B) : M B :=
  fun st =>
    match m st with
    | (Return a, st') => k a st'
    | (Throw t, st') => (Throw t, st')
    end.

(** [try { body } catch (e) { handler e }] *)
Definition tryCatch {A} (body : M A) (handler : Thrown -> M A) : M A :=
  fun st =>
    match body st with
    | (Return a, st') => (Return a, st')
    | (Throw t, st') => handler t st'
    end.

(** The monad operations, so that stdpp's [x ← m; k] and [m ;; k] apply. *)
#[export] Instance M_ret : MRet M := @ret.
#[export] Instance M_bind : MBind M := fun A B k m => bind m k.

Definition errno (what path : string) : Thrown :=
  ThrownError (mkError (what +:+ " '" +:+ path +:+ "'") None None).

Definition existsPath (p : string) (d : FS) : bool :=
  bool_decide (is_Some (files d !! p)) || bool_decide (p ∈ dirs d).

Section Effects.
Context `{Runtime}.

(** [await execAsync(command, ...)] *)
Definition execAsync (command : string) : M (string * string) :=
  fun st =>
    let '(r, d) := exec command (fs st) in
    let st' := mkState d (executed st ++ [command]) (written st) in
    match r with
    | Resolved out err => (Return (out, err), st')
    | Rejected e => (Throw e, st')
    end.

(** [await writeFile(p, data)] *)
Definition writeFile (p data : string) : M unit :=
  fun st =>
    let d := fs st in
    if bool_decide (p ∈ unwritable d) then
      (Throw (errno "EACCES: permission denied, open" p), st)
    else
      (Return tt,
       mkState (mkFS (<[p := data]> (files d)) (dirs d) (unwritable d))
         (executed st) (written st ++ [(p, data)])).

(** [await mkdir(p, { recursive: true })] *)
Definition mkdir (p : string) : M unit :=
  fun st =>
    let d := fs st in
    if bool_decide (p ∈ unwritable d) then
      (Throw (errno "EACCES: permission denied, mkdir" p), st)
    else
      (Return tt,
       mkState (mkFS (files d) ({[p]} ∪ dirs d) (unwritable d))
         (executed st) (written st)).

(** [fs.existsSync(p)] *)
Definition existsSync (p : string) : M bool :=
  fun st => (Return (existsPath p (fs st)), st).

(** [await readFile(p, 'utf-8')] *)
Definition readFile (p : string) : M string :=
  fun st =>
    match files (fs st) !! p with
    | Some text => (Return text, st)
    | None => (Throw (errno "ENOENT: no such file or directory, open" p), st)
    end.

End Effects.

(** ** The server: [class XcodeBuildServer] *)

Record Server : Type := mkServer {
  baseDir : string;
  buildLogsDir : string;
  latestBuildLog : option string      (* [null] is [None] *)
}.

Record InvocationResult : Type := mkResult {
  success : bool;
  output : string;
  logPath : string
}.

(** A template literal: the concatenation of its pieces. *)
Definition template (pieces : list string) : string :=
  fold_right String.append EmptyString pieces.

(** ["${s}"], a piece between double quotes. *)
Definition quoted (s : string) : string :=
  template [String JS.DQ EmptyString; s; String JS.DQ EmptyString].

(** A backslash at the end of a template line continues the literal on the
    next line: the cooked text keeps the blank before the backslash and the
    eight blanks that indent the next line. *)
Definition continued : string := "         ".

Definition defaultDestination : string :=
  "platform=iOS Simulator,name=iPhone 15 Pro".

(** [new Error(message)] *)
Definition newError (msg : string) : Thrown :=
  ThrownError (mkError msg None None).

(** [new McpError(code, message)] *)
Definition McpError (c : ErrorCode) (msg : string) : Thrown :=
  ThrownError (mkError msg None (Some c)).

(** [String(v)] for a value that is not an [Error]: an array is its
    elements joined by commas, [null] among them as the empty text, and an
    object literal is [[object Object]]; a number is its literal. *)
Fixpoint toText (v : JSValue) : string :=
  match v with
  | JNull => "null"
  | JBool true => "true"
  | JBool false => "false"
  | JNumber literal => literal
  | JString s => s
  | JArray items =>
      JS.join ","
        (map (fun item => match item with JNull => EmptyString | _ => toText item end)
           items)
  | JObject _ => "[object Object]"
  end.

(** [`${error}`] for a caught value. On an [Error] this is
    [Error.prototype.toString]: the name, then a colon and the message when
    there is one; the errors of [fs] and [child_process] are of name
    [Error]. *)
Definition errorText (error : Thrown) : string :=
  match error with
  | ThrownError e =>
      let name := match code e with Some _ => "McpError" | None => "Error" end in
      if JS.truthy (message e) then name +:+ ": " +:+ message e else name
  | ThrownValue v => toText v
  end.

(** [constructor(baseDir)] *)
Definition newServer (baseDir : string) : Thrown + Server :=
  if negb (JS.truthy baseDir) then inl (newError "Base directory is required")
  else inr (mkServer baseDir (path.join [baseDir; "build-logs"]) None).

(** *** Type guards on the arguments of a tool call *)

(** [typeof args !== 'object' || args === null] fails: the receiver. *)
Definition asObject (args : option JSValue) : option JSValue :=
  match args with
  | Some JNull => None
  | Some a => match typeof a with TObject => Some a | _ => None end
  | None => None
  end.

(** [typeof a.k === 'string'] *)
Definition isStringProp (k : string) (a : JSValue) : bool :=
  match prop k a with
  | Some v => match typeof v with TString => true | _ => false end
  | None => false
  end.

(** [a.k === undefined || typeof a.k === 'string'] *)
Definition isOptionalStringProp (k : string) (a : JSValue) : bool :=
  match prop k a with
  | None => true
  | Some _ => isStringProp k a
  end.

(** [a.k === undefined || typeof a.k === 'boolean'] *)
Definition isOptionalBooleanProp (k : string) (a : JSValue) : bool :=
  match prop k a with
  | None => true
  | Some v => match typeof v with TBoolean => true | _ => false end
  end.

Definition isBuildArguments (args : option JSValue) : bool :=
  match asObject args with
  | None => false
  | Some a =>
      isStringProp "projectPath" a &&
      isStringProp "scheme" a &&
      isOptionalStringProp "configuration" a &&
      isOptionalStringProp "destination" a
  end.

Definition isBuildOptions (args : option JSValue) : bool :=
  if negb (isBuildArguments args) then false
  else match args with
       | Some a => isOptionalBooleanProp "includeWarnings" a
       | None => false
       end.

Definition isTestArguments (args : option JSValue) : bool :=
  match asObject args with
  | None => false
  | Some a =>
      isStringProp "projectPath" a &&
      isStringProp "scheme" a &&
      isOptionalStringProp "testIdentifier" a &&
      match prop "skipTests" a with
      | None => true
      | Some (JArray items) =>
          forallb (fun t => match typeof t with TString => true | _ => false end) items
      | Some _ => false
      end &&
      isOptionalStringProp "configuration" a &&
      isOptionalStringProp "destination" a
  end.

Definition isTestOptions (args : option JSValue) : bool :=
  if negb (isTestArguments args) then false
  else match args with
       | Some a => isOptionalBooleanProp "includeWarnings" a
       | None => false
       end.

(** Reading an argument once the guard has passed. *)
Definition stringArg (k : string) (a : JSValue) : option string :=
  match prop k a with
  | Some (JString s) => Some s
  | _ => None
  end.

Definition booleanArg (k : string) (a : JSValue) : option bool :=
  match prop k a with
  | Some (JBool b) => Some b
  | _ => None
  end.

Fixpoint strings (items : list JSValue) : list string :=
  match items with
  | JString s :: rest => s :: strings rest
  | _ :: rest => strings rest
  | [] => []
  end.

Definition stringArrayArg (k : string) (a : JSValue) : option (list string) :=
  match prop k a with
  | Some (JArray items) => Some (strings items)
  | _ => None
  end.

(** *** Output classification *)

(** [/^\/.+:\d+:\d+: error:/] *)
Definition errorLineRe : Regex.re :=
  Regex.Cat (Regex.Chr "/")
    (Regex.Cat (Regex.Plus Regex.Dot)
       (Regex.Cat (Regex.Chr ":")
          (Regex.Cat (Regex.Plus Regex.Digit)
             (Regex.Cat (Regex.Chr ":")
                (Regex.Cat (Regex.Plus Regex.Digit) (Regex.lit ": error:")))))).

(** The predicate of [filterBuildOutput]: a string is kept for one of its
    four marks, an object for being a diagnostic of severity [error], any
    other line is dropped. *)
Definition significant (line : JSValue) : bool :=
  match line with
  | JString text =>                         (* [typeof line === 'string'] *)
      if JS.startsWith text "/usr/bin/xcodebuild" || JS.includes text "** BUILD"
      then true
      else if Regex.matchesPrefix errorLineRe text
              || JS.includes text "note: found this candidate"
      then true
      else false
  | JNull | JArray _ | JObject _ =>         (* [typeof line === 'object'] *)
      if isStr (prop "type" line) "diagnostic"
      then isStr (prop "diagnostic" line ≫= prop "severity") "error"
      else false
  | JBool _ | JNumber _ => false
  end.

Definition filterBuildOutput (jsonOutput : list JSValue) : list JSValue :=
  List.filter significant jsonOutput.

(** *** Command construction *)

(** [`-skip-testing:${test}`] *)
Definition skipFlag (test : string) : string := "-skip-testing:" +:+ test.

Definition testFlags (testIdentifier : option string)
    (skipTests : option (list string)) : string :=
  let flags := "test" in
  let flags :=
    match testIdentifier with
    | Some id => if JS.truthy id then flags +:+ " -only-testing:" +:+ id else flags
    | None => flags
    end in
  match skipTests with
  | Some ((_ :: _) as tests) =>
      flags +:+ " " +:+ JS.join " " (map skipFlag tests)
  | _ => flags
  end.

Definition testCommand (projectPath scheme configuration destination
    xcresultPath flags logPath : string) : string :=
  template
    [ "which xcodebuild && xcodebuild -project "; quoted projectPath; continued;
      "-scheme "; quoted scheme; continued;
      "-configuration "; quoted configuration; continued;
      "-destination '"; destination; "'"; continued;
      "-resultBundlePath "; quoted xcresultPath; continued;
      "-enableCodeCoverage YES"; continued;
      "-UseModernBuildSystem=YES"; continued;
      "-json"; continued;
      "clean "; flags; " 2>&1 | tee "; logPath ].

Definition buildCommand (projectPath scheme configuration destination
    xcresultPath logPath : string) : string :=
  template
    [ "which xcodebuild && xcodebuild -project "; quoted projectPath; continued;
      "-scheme "; quoted scheme; continued;
      "-configuration "; quoted configuration; continued;
      "-destination '"; destination; "'"; continued;
      "-resultBundlePath "; quoted xcresultPath; continued;
      "-UseModernBuildSystem=YES"; continued;
      "-json"; continued;
      "clean build 2>&1 | tee "; logPath ].

Definition xcresulttoolCommand (format xcresultPath : string) : string :=
  template ["xcrun xcresulttool get --format "; format; " --path "; quoted xcresultPath].

Definition xccovCommand (xcresultPath : string) : string :=
  template ["xcrun xccov view --report "; quoted xcresultPath].

(** The names an invocation derives from the clock. *)
Definition timestampOf (now : string) : string := JS.replaceColonPeriod now.

Definition logPathOf (this : Server) (kind now : string) : string :=
  path.join [buildLogsDir this; template [kind; "-"; timestampOf now; ".log"]].

Definition xcresultPathOf (projectPath subdir now : string) : string :=
  path.join [path.dirname projectPath; subdir; template ["Reports-"; timestampOf now]]
  +:+ ".xcresult".

(** [error.message + (execError.stderr ? `\n${execError.stderr}` : '')] *)
Definition errorOutputOf (e : JSError) : string :=
  message e +:+
  match stderr e with
  | Some text => if JS.truthy text then String JS.LF text else EmptyString
  | None => EmptyString
  end.

Record ToolResponse : Type := mkResponse {
  text : string;          (* [content: [{ type: "text", text }]] *)
  isError : bool
}.

Record Resource : Type := mkResource {
  uri : string;
  name : string;
  mimeType : string;
  description : string
}.

Record ResourceContents : Type := mkContents {
  contentsUri : string;
  contentsMimeType : string;
  contentsText : string
}.

Definition latestLogUri : string := "xcode-build://latest-log".

(** A call of [buildProject] or of [runTests] with its arguments, as the
    tool handler makes it. *)
Inductive Invocation : Type :=
| Build (projectPath scheme configuration : string) (destination : option string)
    (includeWarnings : bool)
| Test (projectPath scheme : string) (configuration testIdentifier : option string)
    (skipTests : option (list string)) (destination : option string).

(** The [switch] of the tool handler up to the call: the guard of each
    tool and the arguments it passes on. *)
Definition toolInvocation (toolName : string) (arguments : option JSValue)
  : Thrown + Invocation :=
  if String.eqb toolName "build_project" then
    if negb (isBuildOptions arguments) then
      inl (McpError InvalidParams "Invalid build arguments provided")
    else
      match arguments ≫= stringArg "projectPath", arguments ≫= stringArg "scheme" with
      | Some projectPath, Some scheme =>
          inr (Build projectPath scheme
                 (default "Debug" (arguments ≫= stringArg "configuration"))
                 (arguments ≫= stringArg "destination")
                 (default false (arguments ≫= booleanArg "includeWarnings")))
      | _, _ => inl (McpError InvalidParams "Invalid build arguments provided")
      end
  else if String.eqb toolName "run_tests" then
    if negb (isTestArguments arguments) then
      inl (McpError InvalidParams "Invalid test arguments provided")
    else
      match arguments ≫= stringArg "projectPath", arguments ≫= stringArg "scheme" with
      | Some projectPath, Some scheme =>
          inr (Test projectPath scheme
                 (arguments ≫= stringArg "configuration")
                 (arguments ≫= stringArg "testIdentifier")
                 (arguments ≫= stringArrayArg "skipTests")
                 (arguments ≫= stringArg "destination"))
      | _, _ => inl (McpError InvalidParams "Invalid test arguments provided")
      end
  else inl (McpError MethodNotFound ("Unknown tool: " +:+ toolName)).

Section XcodeBuildServer.
Context `{Runtime}.

(** One line of captured output: [JSON.parse(line)], or the line itself
    when that throws. *)
Definition decodeLine (line : string) : JSValue :=
  match JSON_parse line with
  | Some v => v
  | None => JString line
  end.

(** [stdout.split('\n').filter(line => line.trim()).map(...)] *)
Definition decodeOutput (stdout : string) : list JSValue :=
  map decodeLine
    (List.filter (fun line => JS.truthy (JS.trim line)) (JS.split JS.LF stdout)).

(** [typeof line === 'string' ? line : JSON.stringify(line)] *)
Definition renderLine (line : JSValue) : string :=
  match line with
  | JString s => s
  | _ => JSON_stringify 0 line
  end.

(** [includeWarnings ? jsonOutput : this.filterBuildOutput(jsonOutput)] *)
Definition filteredOutput (includeWarnings : bool) (jsonOutput : list JSValue)
  : list JSValue :=
  if includeWarnings then jsonOutput else filterBuildOutput jsonOutput.

(** The [catch (error)] block shared by [runTests] and [buildProject]. *)
Definition onExecError (logPath : string) (error : Thrown) : M InvocationResult :=
  match error with
  | ThrownError e =>
      let errorOutput := errorOutputOf e in
      writeFile logPath errorOutput;;
      mret (mkResult false errorOutput logPath)
  | ThrownValue _ => throw error
  end.

(** [try { await mkdir(dir, { recursive: true }) } catch (error) { ... }] *)
Definition prepareDirectory (dir : string) : M unit :=
  tryCatch (mkdir dir) (fun _ => mret tt).

Definition processTestResults (this : Server) (timestamp xcresultPath : string)
  : M unit :=
  tryCatch
    ('(summaryOutput, _) ← execAsync (xcresulttoolCommand "json" xcresultPath);
     writeFile
       (path.join [buildLogsDir this; template ["test-summary-"; timestamp; ".json"]])
       summaryOutput;;
     '(coverageOutput, _) ← execAsync (xccovCommand xcresultPath);
     writeFile
       (path.join [buildLogsDir this; template ["coverage-"; timestamp; ".txt"]])
       coverageOutput)
    (fun _ => mret tt).

(** What [runTests] does once the child process has completed. *)
Definition testCompleted (this : Server) (timestamp xcresultPath logPath
    stdout stderr : string) : M InvocationResult :=
  tryCatch
    (let jsonOutput := decodeOutput stdout in
     writeFile (logPath +:+ ".json") (JSON_stringify 2 (JArray jsonOutput)))
    (fun _ => mret tt);;
  bundle ← existsSync xcresultPath;
  (if bundle : bool then processTestResults this timestamp xcresultPath else mret tt);;
  let success :=
    negb (JS.includes stdout "** TEST FAILED **")
    && negb (JS.includes stdout "** BUILD FAILED **") in
  mret (mkResult success (stdout +:+ stderr) logPath).

Definition runTests (this : Server) (now : string) (projectPath scheme : string)
    (configuration testIdentifier : option string)
    (skipTests : option (list string)) (destination : option string)
  : M InvocationResult :=
  let configuration := default "Debug" configuration in
  let destination := default defaultDestination destination in
  let timestamp := timestampOf now in
  let logPath := logPathOf this "test" now in
  let projectDir := path.dirname projectPath in
  let xcresultPath := xcresultPathOf projectPath "TestReports" now in
  prepareDirectory (path.join [projectDir; "TestReports"]);;
  let command :=
    testCommand projectPath scheme configuration destination xcresultPath
      (testFlags testIdentifier skipTests) logPath in
  tryCatch
    ('(stdout, stderr) ← execAsync command;
     testCompleted this timestamp xcresultPath logPath stdout stderr)
    (onExecError logPath).

Definition processBuildResults (this : Server) (timestamp xcresultPath : string)
  : M unit :=
  tryCatch
    ('(reportOutput, _) ← execAsync (xcresulttoolCommand "json" xcresultPath);
     writeFile
       (path.join [buildLogsDir this; template ["report-"; timestamp; ".json"]])
       reportOutput;;
     '(summaryOutput, _) ← execAsync (xcresulttoolCommand "human-readable" xcresultPath);
     writeFile
       (path.join [buildLogsDir this; template ["report-"; timestamp; ".txt"]])
       summaryOutput)
    (fun _ => mret tt).

(** What [buildProject] does once the child process has completed. *)
Definition buildCompleted (this : Server) (includeWarnings : bool)
    (timestamp xcresultPath logPath stdout stderr : string) : M InvocationResult :=
  tryCatch
    (let jsonOutput := decodeOutput stdout in
     let filtered := filteredOutput includeWarnings jsonOutput in
     writeFile (logPath +:+ ".json") (JSON_stringify 2 (JArray filtered));;
     let outputText := JS.join (String JS.LF EmptyString) (map renderLine filtered) in
     bundle ← existsSync xcresultPath;
     (if bundle : bool then processBuildResults this timestamp xcresultPath else mret tt);;
     let success := negb (JS.includes stdout "** BUILD FAILED **") in
     mret (mkResult success outputText logPath))
    (fun _ => mret (mkResult false (stdout +:+ stderr) logPath)).

Definition buildProject (this : Server) (now : string) (projectPath scheme
    configuration : string) (destination : option string) (includeWarnings : bool)
  : M InvocationResult :=
  let destination := default defaultDestination destination in
  let timestamp := timestampOf now in
  let logPath := logPathOf this "build" now in
  let projectDir := path.dirname projectPath in
  let xcresultPath := xcresultPathOf projectPath "Build" now in
  prepareDirectory (path.join [projectDir; "Build"]);;
  let command :=
    buildCommand projectPath scheme configuration destination xcresultPath logPath in
  tryCatch
    ('(stdout, stderr) ← execAsync command;
     buildCompleted this includeWarnings timestamp xcresultPath logPath stdout stderr)
    (onExecError logPath).

(** *** Request handlers *)

Definition respond (this : Server) (result : InvocationResult)
  : ToolResponse * Server :=
  (mkResponse (output result) (negb (success result)),
   mkServer (baseDir this) (buildLogsDir this) (Some (logPath result))).

Definition invoke (this : Server) (now : string) (call : Invocation)
  : M InvocationResult :=
  match call with
  | Build projectPath scheme configuration destination includeWarnings =>
      buildProject this now projectPath scheme configuration destination
        includeWarnings
  | Test projectPath scheme configuration testIdentifier skipTests destination =>
      runTests this now projectPath scheme configuration testIdentifier skipTests
        destination
  end.

(** The handler of [CallToolRequestSchema]: the response and the server
    object as the handler leaves it. [now] is the clock when the tool
    starts. *)
Definition callTool (this : Server) (now : string) (toolName : string)
    (arguments : option JSValue) : M (ToolResponse * Server) :=
  match toolInvocation toolName arguments with
  | inl error => throw error
  | inr call =>
      result ← invoke this now call;
      mret (respond this result)
  end.

(** The handler of [ListResourcesRequestSchema]. *)
Definition listResources (this : Server) : list Resource :=
  match latestBuildLog this with
  | Some log =>
      if JS.truthy log then
        [mkResource latestLogUri "Latest Xcode Build Log" "text/plain"
           "Most recent Xcode build output"]
      else []
  | None => []
  end.

(** The handler of [ReadResourceRequestSchema]. *)
Definition readResource (this : Server) (requested : string)
  : M (list ResourceContents) :=
  match latestBuildLog this with
  | Some log =>
      if negb (String.eqb requested latestLogUri) || negb (JS.truthy log) then
        throw (McpError InvalidRequest ("Unknown resource: " +:+ requested))
      else
        tryCatch
          (logContent ← readFile log;
           mret [mkContents requested "text/plain" logContent])
          (fun error =>
             throw (McpError InternalError
                      ("Failed to read build log: " +:+ errorText error)))
  | None => throw (McpError InvalidRequest ("Unknown resource: " +:+ requested))
  end.

End XcodeBuildServer.

(** ** What an invocation derives from its arguments *)

Definition kind (call : Invocation) : string :=
  match call with
  | Build _ _ _ _ _ => "build"
  | Test _ _ _ _ _ _ => "test"
  end.

Definition reportsFolder (call : Invocation) : string :=
  match call with
  | Build _ _ _ _ _ => "Build"
  | Test _ _ _ _ _ _ => "TestReports"
  end.

Definition project (call : Invocation) : string :=
  match call with
  | Build projectPath _ _ _ _ => projectPath
  | Test projectPath _ _ _ _ _ => projectPath
  end.

(** [logPath], [logPath + '.json'] and [xcresultPath]. *)
Definition rawLog (this : Server) (now : string) (call : Invocation) : string :=
  logPathOf this (kind call) now.

Definition structuredLog (this : Server) (now : string) (call : Invocation) : string :=
  rawLog this now call +:+ ".json".

Definition bundle (now : string) (call : Invocation) : string :=
  xcresultPathOf (project call) (reportsFolder call) now.

(** [command] *)
Definition command (this : Server) (now : string) (call : Invocation) : string :=
  match call with
  | Build projectPath scheme configuration destination _ =>
      buildCommand projectPath scheme configuration
        (default defaultDestination destination) (bundle now call) (rawLog this now call)
  | Test projectPath scheme configuration testIdentifier skipTests destination =>
      testCommand projectPath scheme (default "Debug" configuration)
        (default defaultDestination destination) (bundle now call)
        (testFlags testIdentifier skipTests) (rawLog this now call)
  end.

(** The banners whose presence in [stdout] makes [success] false. *)
Definition failureBanners (call : Invocation) : list string :=
  match call with
  | Build _ _ _ _ _ => ["** BUILD FAILED **"]
  | Test _ _ _ _ _ _ => ["** TEST FAILED **"; "** BUILD FAILED **"]
  end.

Definition isBuild (call : Invocation) : bool :=
  match call with
  | Build _ _ _ _ _ => true
  | Test _ _ _ _ _ _ => false
  end.

Section Child.
Context `{Runtime}.

(** The state in which the child process starts: the reports folder has
    been prepared. *)
Definition started (call : Invocation) (st : State) : State :=
  snd (prepareDirectory (path.join [path.dirname (project call); reportsFolder call]) st).

(** The child process of an invocation begun in [st]: what [execAsync]
    yields for [command], and the state it leaves. *)
Definition child (this : Server) (now : string) (call : Invocation) (st : State)
  : ExecResult * State :=
  let start := started call st in
  let '(r, d) := exec (command this now call) (fs start) in
  (r, mkState d (executed start ++ [command this now call]) (written start)).

(** The lines an invocation hands to [JSON.stringify] for the structured
    log. *)
Definition loggedLines (call : Invocation) (stdout : string) : list JSValue :=
  match call with
  | Build _ _ _ _ includeWarnings => filteredOutput includeWarnings (decodeOutput stdout)
  | Test _ _ _ _ _ _ => decodeOutput stdout
  end.

(** The [try] block after [execAsync] has resolved. *)
Definition completed (this : Server) (now : string) (call : Invocation)
    (stdout stderr : string) : M InvocationResult :=
  match call with
  | Build _ _ _ _ includeWarnings =>
      buildCompleted this includeWarnings (timestampOf now) (bundle now call)
        (rawLog this now call) stdout stderr
  | Test _ _ _ _ _ _ =>
      testCompleted this (timestampOf now) (bundle now call) (rawLog this now call)
        stdout stderr
  end.

End Child.

(** ** A reference runtime

    An executable [JSON.parse] and [JSON.stringify] for JSON texts (RFC 8259)
    within the conventions of the embedding: a number is kept as the literal
    it was read from and printed back as such, and a [\u] escape must name a
    code unit below 256. It serves to run the model on concrete inputs; the
    results below do not depend on it. *)

Module Reference.

Definition isJsonSpace (c : ascii) : bool :=
  existsb (Nat.eqb (nat_of_ascii c)) [9; 10; 13; 32].

Fixpoint skipSpace (s : string) : string :=
  match s with
  | String c s' => if isJsonSpace c then skipSpace s' else s
  | EmptyString => EmptyString
  end.

(** [expect word s]: what follows [word] at the start of [s]. *)
Fixpoint expect (word s : string) : option string :=
  match word with
  | EmptyString => Some s
  | String a word' =>
      match s with
      | String b s' => if Ascii.eqb a b then expect word' s' else None
      | EmptyString => None
      end
  end.

(** The longest run of decimal digits at the start of [s], and the rest. *)
Fixpoint digits (s : string) : string * string :=
  match s with
  | String c s' =>
      if Regex.isDigit c then let '(d, rest) := digits s' in (String c d, rest)
      else (EmptyString, s)
  | EmptyString => (EmptyString, EmptyString)
  end.

Definition digits1 (s : string) : option (string * string) :=
  match digits s with
  | (EmptyString, _) => None
  | found => Some found
  end.

(** A number literal: an optional minus sign, an integer part without
    leading zero, an optional fraction, an optional exponent. *)
Definition number (s : string) : option (string * string) :=
  let '(sign, s) :=
    match s with
    | String "-" s' => ("-", s')
    | _ => (EmptyString, s)
    end in
  int ← match s with
        | String "0" s' => Some ("0", s')
        | _ => digits1 s
        end;
  let '(whole, s) := int in
  frac ← match s with
         | String "." s' =>
             '(d, rest) ← digits1 s'; Some ("." +:+ d, rest)
         | _ => Some (EmptyString, s)
         end;
  let '(fraction, s) := frac in
  exp ← match s with
        | String e s' =>
            if Ascii.eqb e "e" || Ascii.eqb e "E" then
              let '(esign, s'') :=
                match s' with
                | String "+" r => ("+", r)
                | String "-" r => ("-", r)
                | _ => (EmptyString, s')
                end in
              '(d, rest) ← digits1 s'';
              Some (String e (esign +:+ d), rest)
            else Some (EmptyString, s)
        | EmptyString => Some (EmptyString, s)
        end;
  let '(exponent, s) := exp in
  Some (sign +:+ whole +:+ fraction +:+ exponent, s).

Definition hexValue (c : ascii) : option nat :=
  let n := nat_of_ascii c in
  if (48 <=? n) && (n <=? 57) then Some (n - 48)
  else if (65 <=? n) && (n <=? 70) then Some (n - 55)
  else if (97 <=? n) && (n <=? 102) then Some (n - 87)
  else None.

(** The four hexadecimal digits of a [\u] escape. An escape that names a
    code unit of 256 or more stands for a string outside the embedding, in
    which a code unit is an [ascii]: the reference parser has no value for
    it and answers [None], where [JSON.parse] decodes it. No text evaluated
    in this file holds such an escape. *)
Definition unicodeEscape (s : string) : option (ascii * string) :=
  match s with
  | String a (String b (String c (String d rest))) =>
      ha ← hexValue a; hb ← hexValue b; hc ← hexValue c; hd ← hexValue d;
      let n := ((ha * 16 + hb) * 16 + hc) * 16 + hd in
      if n <? 256 then Some (ascii_of_nat n, rest) else None
  | _ => None
  end.

(** The characters of a string literal after its opening quote. *)
Fixpoint stringBody (fuel : nat) (s : string) : option (string * string) :=
  match fuel with
  | 0 => None
  | S fuel' =>
      match s with
      | EmptyString => None
      | String c s' =>
          if Ascii.eqb c JS.DQ then Some (EmptyString, s')
          else if Ascii.eqb c "\" then
            match s' with
            | EmptyString => None
            | String e s'' =>
                decoded ←
                  (if Ascii.eqb e JS.DQ then Some (JS.DQ, s'')
                   else if Ascii.eqb e "\" then Some ("\"%char, s'')
                   else if Ascii.eqb e "/" then Some ("/"%char, s'')
                   else if Ascii.eqb e "b" then Some ("008"%char, s'')
                   else if Ascii.eqb e "f" then Some ("012"%char, s'')
                   else if Ascii.eqb e "n" then Some ("010"%char, s'')
                   else if Ascii.eqb e "r" then Some ("013"%char, s'')
                   else if Ascii.eqb e "t" then Some ("009"%char, s'')
                   else if Ascii.eqb e "u" then unicodeEscape s''
                   else None);
                let '(ch, rest) := decoded in
                '(body, rest') ← stringBody fuel' rest;
                Some (String ch body, rest')
            end
          else if nat_of_ascii c <? 32 then None
          else '(body, rest) ← stringBody fuel' s'; Some (String c body, rest)
      end
  end.

(** Assignment to a property: a repeated name keeps its place and takes
    the new value. *)
Fixpoint setField (k : string) (v : JSValue) (fields : list (string * JSValue))
  : list (string * JSValue) :=
  match fields with
  | [] => [(k, v)]
  | (k', v') :: rest =>
      if String.eqb k k' then (k, v) :: rest else (k', v') :: setField k v rest
  end.

(** The elements of an array after its opening bracket, [s] standing at
    the first of them. *)
Fixpoint elements (value : string -> option (JSValue * string)) (fuel : nat)
    (s : string) : option (list JSValue * string) :=
  match fuel with
  | 0 => None
  | S fuel' =>
      '(v, rest) ← value s;
      match skipSpace rest with
      | String "," rest' =>
          '(vs, rest'') ← elements value fuel' rest'; Some (v :: vs, rest'')
      | String "]" rest' => Some ([v], rest')
      | _ => None
      end
  end.

(** The members of an object after its opening brace, [s] standing at
    the first of them; [acc] holds the members read so far. *)
Fixpoint members (value : string -> option (JSValue * string)) (fuel : nat)
    (acc : list (string * JSValue)) (s : string)
  : option (list (string * JSValue) * string) :=
  match fuel with
  | 0 => None
  | S fuel' =>
      match skipSpace s with
      | String q s1 =>
          if Ascii.eqb q JS.DQ then
            '(k, s2) ← stringBody (String.length s1) s1;
            match skipSpace s2 with
            | String ":" s3 =>
                '(v, s4) ← value s3;
                let acc' := setField k v acc in
                match skipSpace s4 with
                | String "," s5 => members value fuel' acc' s5
                | String "}" s5 => Some (acc', s5)
                | _ => None
                end
            | _ => None
            end
          else None
      | EmptyString => None
      end
  end.

Fixpoint value (fuel : nat) (s : string) : option (JSValue * string) :=
  match fuel with
  | 0 => None
  | S fuel' =>
      match skipSpace s with
      | EmptyString => None
      | String c rest as s' =>
          if Ascii.eqb c "n" then r ← expect "ull" rest; Some (JNull, r)
          else if Ascii.eqb c "t" then r ← expect "rue" rest; Some (JBool true, r)
          else if Ascii.eqb c "f" then r ← expect "alse" rest; Some (JBool false, r)
          else if Ascii.eqb c JS.DQ then
            '(body, r) ← stringBody (String.length rest) rest; Some (JString body, r)
          else if Ascii.eqb c "[" then
            match skipSpace rest with
            | String "]" r => Some (JArray [], r)
            | _ => '(vs, r) ← elements (value fuel') fuel' rest; Some (JArray vs, r)
            end
          else if Ascii.eqb c "{" then
            match skipSpace rest with
            | String "}" r => Some (JObject [], r)
            | _ => '(fs, r) ← members (value fuel') fuel' [] rest; Some (JObject fs, r)
            end
          else '(literal, r) ← number s'; Some (JNumber literal, r)
      end
  end.

(** [JSON.parse(text)] *)
Definition parse (text : string) : option JSValue :=
  '(v, rest) ← value (S (String.length text)) text;
  match skipSpace rest with
  | EmptyString => Some v
  | _ => None
  end.

Definition hexDigit (n : nat) : ascii :=
  ascii_of_nat (if n <? 10 then 48 + n else 87 + n).

(** [QuoteJSONString] without its surrounding quotes. *)
Fixpoint escape (s : string) : string :=
  match s with
  | EmptyString => EmptyString
  | String c s' =>
      let n := nat_of_ascii c in
      (if Ascii.eqb c JS.DQ then String "\" (String JS.DQ EmptyString)
       else if Ascii.eqb c "\" then "\\"
       else if n =? 8 then "\b"
       else if n =? 9 then "\t"
       else if n =? 10 then "\n"
       else if n =? 12 then "\f"
       else if n =? 13 then "\r"
       else if n <? 32 then
         "\u00" +:+ String (hexDigit (n / 16)) (String (hexDigit (n mod 16)) EmptyString)
       else String c EmptyString)
      +:+ escape s'
  end.

(** [SerializeJSONProperty] with the indentation unit [gap], at the
    indentation [current]. *)
Fixpoint serialize (gap current : string) (v : JSValue) : string :=
  let stepback := current in
  let indent := current +:+ gap in
  let wrap (opening closing : string) (partial : list string) : string :=
    match partial with
    | [] => opening +:+ closing
    | _ =>
        match gap with
        | EmptyString => template [opening; JS.join "," partial; closing]
        | _ =>
            template
              [ opening; String JS.LF indent;
                JS.join ("," +:+ String JS.LF indent) partial;
                String JS.LF stepback; closing ]
        end
    end in
  match v with
  | JNull => "null"
  | JBool true => "true"
  | JBool false => "false"
  | JNumber literal => literal
  | JString s => quoted (escape s)
  | JArray items => wrap "[" "]" (map (serialize gap indent) items)
  | JObject fields =>
      wrap "{" "}"
        (map (fun '(k, x) =>
                template
                  [ quoted (escape k);
                    match gap with EmptyString => ":" | _ => ": " end;
                    serialize gap indent x ])
             fields)
  end.

Fixpoint spaces (n : nat) : string :=
  match n with
  | 0 => EmptyString
  | S n' => String " " (spaces n')
  end.

(** [JSON.stringify(value, null, indent)] *)
Definition stringify (indent : nat) (v : JSValue) : string :=
  serialize (spaces (Nat.min indent 10)) EmptyString v.

(** The reference runtime over a chosen behaviour of child processes. *)
Definition node (child : string -> FS -> ExecResult * FS) : Runtime :=
  {| JSON_parse := parse; JSON_stringify := stringify; exec := child |}.

End Reference.

(** ** Concrete invocations

    A server, a clock, calls and child processes on which the model is
    evaluated. *)

Module Examples.

Definition nl : string := String JS.LF EmptyString.

Definition server : Server := mkServer "/srv" (path.join ["/srv"; "build-logs"]) None.

Definition now : string := "2024-05-01T10:20:30.400Z".

Definition buildCall (includeWarnings : bool) : Invocation :=
  Build "/work/App.xcodeproj" "App" "Debug" None includeWarnings.

Definition testCall : Invocation :=
  Test "/work/App.xcodeproj" "App" None None (Some ["A/b"; "C/d"]) None.

(** A disk on which the listed paths cannot be written. *)
Definition disk (refused : list string) : State :=
  mkState (mkFS ∅ ∅ (list_to_set refused)) [] [].

(** A tool chain whose [xcodebuild] prints [stdout], which [tee] copies to
    [log], and leaves the result bundles [bundles]; the extraction tools
    print an empty report. *)
Definition toolchain (stdout log : string) (bundles : list string)
    (command : string) (d : FS) : ExecResult * FS :=
  if JS.startsWith command "which xcodebuild" then
    (Resolved stdout EmptyString,
     mkFS (<[log := stdout]> (files d)) (list_to_set bundles ∪ dirs d) (unwritable d))
  else (Resolved "{}" EmptyString, d).

(** A tool chain whose pipeline fails with [error] after [xcodebuild] has
    left the result bundles [bundles]. *)
Definition brokenToolchain (error : Thrown) (bundles : list string)
    (command : string) (d : FS) : ExecResult * FS :=
  (Rejected error, mkFS (files d) (list_to_set bundles ∪ dirs d) (unwritable d)).

Definition buildLog : string := "/srv/build-logs/build-2024-05-01T10-20-30-400Z.log".
Definition testLog : string := "/srv/build-logs/test-2024-05-01T10-20-30-400Z.log".
Definition buildBundle : string := "/work/Build/Reports-2024-05-01T10-20-30-400Z.xcresult".
Definition testBundle : string :=
  "/work/TestReports/Reports-2024-05-01T10-20-30-400Z.xcresult".

(** Captured output of a failed build: a note, a warning record, an error
    record and the banner. *)
Definition failedBuildOutput : string :=
  template
    [ "note: Using new build system"; nl;
      Reference.stringify 0
        (JObject [("type", JString "diagnostic");
                  ("diagnostic", JObject [("severity", JString "warning")])]); nl;
      Reference.stringify 0
        (JObject [("type", JString "diagnostic");
                  ("diagnostic", JObject [("severity", JString "error")])]); nl;
      "** BUILD FAILED **"; nl ].

Definition succeededBuildOutput : string :=
  template ["note: Using new build system"; nl; "** BUILD SUCCEEDED **"; nl].

Definition failedTestOutput : string :=
  template ["Test Case '-[A b]' failed (0.001 seconds)."; nl; "** TEST FAILED **"; nl].

(** Captured output with a blank line between two notes. *)
Definition spacedOutput : string :=
  template ["note: first"; nl; " "; nl; "note: second"; nl].

Definition execFailure : JSError :=
  mkError "Command failed: which xcodebuild && xcodebuild"
    (Some "tee: No space left on device") None.

(** Runtimes: a failed build that leaves a result bundle, a clean build, a
    failed test run, and a pipeline that fails after the result bundle of a
    test run has been left. *)
Definition failedBuild : Runtime :=
  Reference.node (toolchain failedBuildOutput buildLog [buildBundle]).

Definition cleanBuild : Runtime :=
  Reference.node (toolchain succeededBuildOutput buildLog [buildBundle]).

Definition failedTests : Runtime :=
  Reference.node (toolchain failedTestOutput testLog []).

Definition brokenPipe : Runtime :=
  Reference.node (brokenToolchain (ThrownError execFailure) [testBundle]).

(** A build that prints [spacedOutput] and leaves no result bundle. *)
Definition spacedBuild : Runtime :=
  Reference.node (toolchain spacedOutput buildLog []).

End Examples.

(** ** Start-up and the tool list *)

(** [initializeAsync()]: the log directory is created; a failure is logged
    and thrown again. *)
Definition initializeAsync (this : Server) : M unit :=
  tryCatch (mkdir (buildLogsDir this)) (fun error => throw error).

(** The [type] of a property in an [inputSchema]. *)
Inductive SchemaType : Type :=
| SString
| SBoolean
| SArray (items : SchemaType).

Record PropertySchema : Type := mkProperty {
  propertyType : SchemaType;
  propertyDescription : string;
  propertyDefault : option JSValue
}.

Record Tool : Type := mkTool {
  toolName : string;
  toolDescription : string;
  toolProperties : list (string * PropertySchema);
  toolRequired : list string
}.

(** The handler of [ListToolsRequestSchema]. *)
Definition listTools : list Tool :=
  [ mkTool "build_project" "Build an Xcode project"
      [ ("projectPath",
         mkProperty SString "Path to the .xcodeproj or .xcworkspace" None);
        ("scheme", mkProperty SString "Build scheme name" None);
        ("configuration",
         mkProperty SString "Build configuration (e.g., Debug, Release)"
           (Some (JString "Debug")));
        ("includeWarnings",
         mkProperty SBoolean "Include warning messages in output" (Some (JBool false))) ]
      ["projectPath"; "scheme"];
    mkTool "run_tests" "Run Xcode project tests with optional filtering"
      [ ("projectPath",
         mkProperty SString "Path to the .xcodeproj or .xcworkspace" None);
        ("scheme", mkProperty SString "Test scheme name" None);
        ("testIdentifier",
         mkProperty SString
           "Optional specific test to run (e.g., 'MyTests/testExample')" None);
        ("skipTests",
         mkProperty (SArray SString) "Optional array of test identifiers to skip" None);
        ("configuration",
         mkProperty SString "Build configuration (e.g., Debug, Release)"
           (Some (JString "Debug"))) ]
      ["projectPath"; "scheme"] ].

(** A value has the type a schema declares. *)
Fixpoint hasType (t : SchemaType) (v : JSValue) : bool :=
  match t, v with
  | SString, JString _ => true
  | SBoolean, JBool _ => true
  | SArray items, JArray values => forallb (hasType items) values
  | _, _ => false
  end.

(** An argument object conforms to the [inputSchema] of a tool: it is an
    object, it has every required property, and each declared property it
    has is of the declared type. *)
Definition conforms (tool : Tool) (a : JSValue) : bool :=
  match a with
  | JObject _ =>
      forallb (fun k => bool_decide (is_Some (prop k a))) (toolRequired tool)
      && forallb (fun '(k, schema) =>
                    match prop k a with
                    | None => true
                    | Some v => hasType (propertyType schema) v
                    end)
           (toolProperties tool)
  | _ => false
  end.

(** ** Artifacts *)

(** The files an invocation writes, or has the tool chain write: the raw
    log, the structured log, and the two extracts of the result bundle. *)
Definition artifacts (this : Server) (now : string) (call : Invocation) : list string :=
  match call with
  | Build _ _ _ _ _ =>
      [ rawLog this now call;
        structuredLog this now call;
        path.join [buildLogsDir this; template ["report-"; timestampOf now; ".json"]];
        path.join [buildLogsDir this; template ["report-"; timestampOf now; ".txt"]] ]
  | Test _ _ _ _ _ _ =>
      [ rawLog this now call;
        structuredLog this now call;
        path.join [buildLogsDir this; template ["test-summary-"; timestampOf now; ".json"]];
        path.join [buildLogsDir this; template ["coverage-"; timestampOf now; ".txt"]] ]
  end.

(** The file names of the artifacts of an invocation with the timestamp
    token [token], in the order of [artifacts]. *)
Definition artifactNames (call : Invocation) (token : string) : list string :=
  match call with
  | Build _ _ _ _ _ =>
      [ "build-" +:+ token +:+ ".log";
        "build-" +:+ token +:+ ".log.json";
        "report-" +:+ token +:+ ".json";
        "report-" +:+ token +:+ ".txt" ]
  | Test _ _ _ _ _ _ =>
      [ "test-" +:+ token +:+ ".log";
        "test-" +:+ token +:+ ".log.json";
        "test-summary-" +:+ token +:+ ".json";
        "coverage-" +:+ token +:+ ".txt" ]
  end.

(** A file name: not empty, without a slash, and neither [.] nor [..]. *)
Definition isFileName (name : string) : Prop :=
  JS.includes name "/" = false
  /\ name <> EmptyString /\ name <> "." /\ name <> "..".

(** What [join] puts before the last of several segments. *)
Definition joinedBefore (l : list string) : string :=
  match l with
  | [] => EmptyString
  | _ => JS.join "/" l +:+ "/"
  end.

(** Every code unit of a string passes a test. *)
Definition everyChar (test : ascii -> bool) (s : string) : bool :=
  forallb test (list_ascii_of_string s).

(** * Properties *)

(** ** The model on concrete inputs *)

Example server_of_base_directory : newServer "/srv" = inr Examples.server.
Proof. reflexivity. Qed.

Example server_needs_base_directory :
  newServer EmptyString = inl (newError "Base directory is required").
Proof. reflexivity. Qed.

Example log_path_of_build :
  rawLog Examples.server Examples.now (Examples.buildCall false) = Examples.buildLog.
Proof. reflexivity. Qed.

Example bundle_path_of_tests :
  bundle Examples.now Examples.testCall = Examples.testBundle.
Proof. reflexivity. Qed.

Example join_normalizes :
  path.join ["/srv/logs/"; "build-logs"] = "/srv/logs/build-logs"
  /\ path.join ["a/../b"; "./c"] = "b/c"
  /\ path.join [EmptyString; EmptyString] = ".".
Proof. repeat split; reflexivity. Qed.

Example dirname_of_project :
  path.dirname "/work/App.xcodeproj" = "/work"
  /\ path.dirname "App.xcodeproj" = "."
  /\ path.dirname "/App.xcodeproj" = "/".
Proof. repeat split; reflexivity. Qed.

Example error_line_is_significant :
  significant (JString "/work/App/View.swift:12:5: error: cannot find 'x' in scope") = true.
Proof. reflexivity. Qed.

Example warning_line_is_dropped :
  significant (JString "/work/App/View.swift:12:5: warning: unused variable 'x'") = false.
Proof. reflexivity. Qed.

Example banner_and_tool_lines_are_significant :
  significant (JString "** BUILD SUCCEEDED **") = true
  /\ significant (JString "/usr/bin/xcodebuild") = true
  /\ significant (JString "note: found this candidate") = true
  /\ significant (JArray [JString "** BUILD FAILED **"]) = false
  /\ significant JNull = false.
Proof. repeat split; reflexivity. Qed.

Example flags_of_a_filtered_test_run :
  testFlags (Some "AppTests/testLogin") (Some ["A/b"; "C/d"])
  = "test -only-testing:AppTests/testLogin -skip-testing:A/b -skip-testing:C/d"
  /\ testFlags (Some EmptyString) (Some []) = "test"
  /\ testFlags None None = "test".
Proof. repeat split; reflexivity. Qed.

Example failure_text_with_stderr :
  errorOutputOf Examples.execFailure
  = template ["Command failed: which xcodebuild && xcodebuild"; Examples.nl;
              "tee: No space left on device"]
  /\ errorOutputOf (mkError "spawn /bin/sh ENOENT" None None) = "spawn /bin/sh ENOENT"
  /\ errorOutputOf (mkError "Command failed" (Some EmptyString) None) = "Command failed".
Proof. repeat split; reflexivity. Qed.

Example decoding_a_record_and_a_banner :
  @decodeOutput Examples.failedBuild Examples.failedBuildOutput =
    [ JString "note: Using new build system";
      JObject [("type", JString "diagnostic");
               ("diagnostic", JObject [("severity", JString "warning")])];
      JObject [("type", JString "diagnostic");
               ("diagnostic", JObject [("severity", JString "error")])];
      JString "** BUILD FAILED **" ].
Proof. vm_compute. reflexivity. Qed.

(** ** The effects, step by step *)

Ltac unfold_monad :=
  unfold mbind, M_bind, mret, M_ret, bind, ret, throw, tryCatch in *.

Section EffectFacts.
Context `{Runtime}.

Lemma writeFile_writable p data st :
  p ∉ unwritable (fs st) ->
  writeFile p data st =
    (Return tt,
     mkState (mkFS (<[p := data]> (files (fs st))) (dirs (fs st)) (unwritable (fs st)))
       (executed st) (written st ++ [(p, data)])).
Proof.
  intros Hp. unfold writeFile. rewrite bool_decide_eq_false_2; done.
Qed.

Lemma writeFile_refused p data st :
  p ∈ unwritable (fs st) ->
  writeFile p data st = (Throw (errno "EACCES: permission denied, open" p), st).
Proof.
  intros Hp. unfold writeFile. rewrite bool_decide_eq_true_2; done.
Qed.

(** A step whose failure is caught and dropped always returns. *)
Lemma swallowed_returns (m : M unit) st :
  fst (tryCatch m (fun _ => mret tt) st) = Return tt.
Proof.
  unfold_monad. destruct (m st) as [[[]|t] st']; reflexivity.
Qed.

Lemma prepareDirectory_returns dir st :
  prepareDirectory dir st = (Return tt, snd (prepareDirectory dir st)).
Proof.
  rewrite <- (swallowed_returns (mkdir dir) st) at 1.
  unfold prepareDirectory. apply surjective_pairing.
Qed.

Lemma prepareDirectory_logs dir st :
  executed (snd (prepareDirectory dir st)) = executed st
  /\ written (snd (prepareDirectory dir st)) = written st.
Proof.
  unfold prepareDirectory, mkdir. unfold_monad.
  destruct (bool_decide _); simpl; auto.
Qed.

Lemma existsPath_insert p q data d :
  p <> q ->
  existsPath p (mkFS (<[q := data]> (files d)) (dirs d) (unwritable d)) = existsPath p d.
Proof.
  intros Hne. unfold existsPath. simpl. rewrite lookup_insert_ne; auto.
Qed.

End EffectFacts.

(** ** Result-bundle post-processing and the steps after the child process *)

Ltac case_effect :=
  match goal with
  | |- context [exec ?c ?d] => destruct (exec c d) as [[? ?|?] ?]
  | |- context [bool_decide ?P] => destruct (bool_decide P)
  end; simpl.

Section Completion.
Context `{Runtime}.

(** Extraction from the result bundle always returns, and its first step
    is the call of the extraction tool. *)
Lemma processTestResults_spec this timestamp xcresultPath st :
  exists st' more files,
    processTestResults this timestamp xcresultPath st = (Return tt, st')
    /\ executed st' = executed st ++ xcresulttoolCommand "json" xcresultPath :: more
    /\ written st' = written st ++ files.
Proof.
  unfold processTestResults, execAsync, writeFile. unfold_monad.
  repeat case_effect;
    eexists _, _, _; (split; [reflexivity|]); simpl;
    rewrite <- ?app_assoc; simpl; split; try reflexivity;
    rewrite ?app_nil_r; try reflexivity.
Qed.

Lemma processBuildResults_spec this timestamp xcresultPath st :
  exists st' more files,
    processBuildResults this timestamp xcresultPath st = (Return tt, st')
    /\ executed st' = executed st ++ xcresulttoolCommand "json" xcresultPath :: more
    /\ written st' = written st ++ files.
Proof.
  unfold processBuildResults, execAsync, writeFile. unfold_monad.
  repeat case_effect;
    eexists _, _, _; (split; [reflexivity|]); simpl;
    rewrite <- ?app_assoc; simpl; split; try reflexivity;
    rewrite ?app_nil_r; try reflexivity.
Qed.

(** [runTests] after the child process: the result depends on the
    captured output alone. *)
Lemma testCompleted_spec this timestamp xcresultPath logPath stdout stderr st :
  xcresultPath <> logPath +:+ ".json" ->
  exists st' more files,
    testCompleted this timestamp xcresultPath logPath stdout stderr st =
      (Return
         (mkResult
            (negb (JS.includes stdout "** TEST FAILED **")
             && negb (JS.includes stdout "** BUILD FAILED **"))
            (stdout +:+ stderr) logPath),
       st')
    /\ executed st' =
         executed st ++
         (if existsPath xcresultPath (fs st)
          then xcresulttoolCommand "json" xcresultPath :: more else [])
    /\ written st' =
         written st ++
         (if bool_decide (logPath +:+ ".json" ∈ unwritable (fs st)) then files
          else (logPath +:+ ".json", JSON_stringify 2 (JArray (decodeOutput stdout)))
               :: files).
Proof.
  intros Hne. unfold testCompleted, existsSync, writeFile. unfold_monad.
  destruct (bool_decide (logPath +:+ ".json" ∈ unwritable (fs st))); simpl;
    rewrite ?existsPath_insert by assumption;
    destruct (existsPath xcresultPath (fs st)).
  - destruct (processTestResults_spec this timestamp xcresultPath st)
      as (st' & more & files & -> & He & Hw).
    exists st', more, files. auto.
  - exists st, [], []. rewrite !app_nil_r. auto.
  - match goal with |- context [processTestResults _ _ _ ?s] =>
      destruct (processTestResults_spec this timestamp xcresultPath s)
        as (st' & more & files & -> & He & Hw) end.
    exists st', more, files. simpl in *. rewrite Hw, <- app_assoc. auto.
  - eexists _, [], []. rewrite app_nil_r. simpl. auto.
Qed.

(** [buildProject] after the child process, when the structured log
    cannot be written: the [catch (parseError)] block answers. *)
Lemma buildCompleted_refused this includeWarnings timestamp xcresultPath logPath
    stdout stderr st :
  logPath +:+ ".json" ∈ unwritable (fs st) ->
  buildCompleted this includeWarnings timestamp xcresultPath logPath stdout stderr st =
    (Return (mkResult false (stdout +:+ stderr) logPath), st).
Proof.
  intros Hw. unfold buildCompleted. unfold_monad.
  rewrite writeFile_refused by assumption. reflexivity.
Qed.

(** [buildProject] after the child process, when the structured log is
    written. *)
Lemma buildCompleted_spec this includeWarnings timestamp xcresultPath logPath
    stdout stderr st :
  xcresultPath <> logPath +:+ ".json" ->
  logPath +:+ ".json" ∉ unwritable (fs st) ->
  exists st' more files,
    buildCompleted this includeWarnings timestamp xcresultPath logPath stdout stderr st =
      (Return
         (mkResult
            (negb (JS.includes stdout "** BUILD FAILED **"))
            (JS.join (String JS.LF EmptyString)
               (map renderLine (filteredOutput includeWarnings (decodeOutput stdout))))
            logPath),
       st')
    /\ executed st' =
         executed st ++
         (if existsPath xcresultPath (fs st)
          then xcresulttoolCommand "json" xcresultPath :: more else [])
    /\ written st' =
         written st ++
         (logPath +:+ ".json",
          JSON_stringify 2 (JArray (filteredOutput includeWarnings (decodeOutput stdout))))
         :: files.
Proof.
  intros Hne Hw. unfold buildCompleted, existsSync. unfold_monad.
  rewrite writeFile_writable by assumption. simpl.
  rewrite existsPath_insert by assumption.
  destruct (existsPath xcresultPath (fs st)).
  - match goal with |- context [processBuildResults _ _ _ ?s] =>
      destruct (processBuildResults_spec this timestamp xcresultPath s)
        as (st' & more & files & -> & He & Hw') end.
    exists st', more, files. simpl in *. rewrite Hw', <- app_assoc. auto.
  - eexists _, [], []. rewrite app_nil_r. simpl. auto.
Qed.

End Completion.

(** ** Strings and paths *)

Lemma append_empty s : s +:+ EmptyString = s.
Proof.
  induction s as [|c s IH]; [reflexivity|].
  change (String c (s +:+ EmptyString) = String c s). f_equal. exact IH.
Qed.

Lemma length_append a b :
  String.length (a +:+ b) = String.length a + String.length b.
Proof.
  induction a as [|x a IH]; [reflexivity|].
  change (S (String.length (a +:+ b)) = S (String.length a + String.length b)).
  rewrite IH. reflexivity.
Qed.

Lemma append_assoc a b c : (a +:+ b) +:+ c = a +:+ (b +:+ c).
Proof.
  induction a as [|x a IH]; [reflexivity|].
  change (String x ((a +:+ b) +:+ c) = String x (a +:+ (b +:+ c))). f_equal. exact IH.
Qed.

(** [startsWith] and [includes] are prefix and substring tests. *)
Lemma startsWith_spec s p :
  JS.startsWith s p = true <-> exists rest, s = p +:+ rest.
Proof.
  revert s. induction p as [|a p IH]; intros s.
  - split; [exists s; reflexivity | reflexivity].
  - destruct s as [|b s]; simpl.
    + split; [discriminate | intros [rest Hrest]; discriminate].
    + rewrite andb_true_iff, IH. split.
      * intros [Hab [rest ->]]. apply Ascii.eqb_eq in Hab as ->. exists rest. reflexivity.
      * intros [rest [= -> ->]]. split; [apply Ascii.eqb_refl | exists rest; reflexivity].
Qed.

Lemma includes_spec s sub :
  JS.includes s sub = true <-> exists before after, s = before +:+ sub +:+ after.
Proof.
  induction s as [|c s IH].
  - simpl. rewrite orb_false_r, startsWith_spec. split.
    + intros [rest Hrest]. exists EmptyString, rest. exact Hrest.
    + intros ([|b before] & after & Heq); [exists after; exact Heq | discriminate].
  - cbn [JS.includes]. rewrite orb_true_iff, startsWith_spec, IH. split.
    + intros [[rest Hrest] | (before & after & Heq)].
      * exists EmptyString, rest. exact Hrest.
      * exists (String c before), after. rewrite Heq. reflexivity.
    + intros ([|b before] & after & Heq).
      * left. exists after. exact Heq.
      * right. injection Heq as -> ->. exists before, after. reflexivity.
Qed.

Lemma split_not_nil sep s : JS.split sep s <> [].
Proof.
  destruct s as [|c s]; [discriminate|].
  simpl. destruct (Ascii.eqb c sep); [discriminate|].
  destruct (JS.split sep s); discriminate.
Qed.

(** Joining the lines of a text with line feeds gives the text back. *)
Lemma join_split sep s : JS.join (String sep EmptyString) (JS.split sep s) = s.
Proof.
  induction s as [|c s IH]; [reflexivity|].
  pose proof (split_not_nil sep s) as Hne.
  cbn [JS.split]. destruct (Ascii.eqb c sep) eqn:Hc.
  - apply Ascii.eqb_eq in Hc as ->.
    destruct (JS.split sep s) as [|h t] eqn:Hs; [contradiction|].
    change (String sep (JS.join (String sep EmptyString) (h :: t)) = String sep s).
    rewrite IH. reflexivity.
  - destruct (JS.split sep s) as [|h t] eqn:Hs; [contradiction|].
    destruct t as [|h' t].
    + simpl in IH. subst. reflexivity.
    + change (String c (JS.join (String sep EmptyString) (h :: h' :: t)) = String c s).
      rewrite IH. reflexivity.
Qed.

Lemma last_append s t : t <> EmptyString -> JS.last (s +:+ t) = JS.last t.
Proof.
  intros Ht. induction s as [|c s IH]; [reflexivity|].
  simpl. rewrite IH. destruct (s +:+ t) eqn:E; [|reflexivity].
  destruct s; simpl in E; [contradiction | discriminate].
Qed.

(** ** The matcher of regular expressions is sound and complete *)

Module RegexFacts.
Import Regex.

Lemma append_is_empty a b : a +:+ b = EmptyString -> a = EmptyString /\ b = EmptyString.
Proof.
  destruct a; [auto | discriminate].
Qed.

Lemma lang_cat_inv r1 r2 s :
  lang (Cat r1 r2) s -> exists s1 s2, s = s1 +:+ s2 /\ lang r1 s1 /\ lang r2 s2.
Proof.
  inversion 1; subst; eauto.
Qed.

Lemma lang_alt_inv r1 r2 s : lang (Alt r1 r2) s -> lang r1 s \/ lang r2 s.
Proof.
  inversion 1; subst; auto.
Qed.

Lemma nullable_lang r : nullable r = true <-> lang r EmptyString.
Proof.
  induction r as [| |c| | |r1 IH1 r2 IH2|r1 IH1 r2 IH2|r IH]; simpl.
  - split; [discriminate | inversion 1].
  - split; [constructor | reflexivity].
  - split; [discriminate | inversion 1].
  - split; [discriminate | inversion 1].
  - split; [discriminate | inversion 1].
  - rewrite andb_true_iff, IH1, IH2. split.
    + intros [H1 H2]. change EmptyString with (EmptyString +:+ EmptyString).
      constructor; assumption.
    + intros Hcat. apply lang_cat_inv in Hcat as (s1 & s2 & Heq & H1 & H2).
      symmetry in Heq. apply append_is_empty in Heq as [-> ->]. auto.
  - rewrite orb_true_iff, IH1, IH2. split.
    + intros [H1|H2]; [apply lang_alt_l | apply lang_alt_r]; assumption.
    + apply lang_alt_inv.
  - split; [constructor | reflexivity].
Qed.

(** A non-empty word of a starred expression starts with a non-empty word
    of the expression. *)
Lemma lang_star_cons_inv r c s :
  lang (Star r) (String c s) ->
  exists s1 s2, s = s1 +:+ s2 /\ lang r (String c s1) /\ lang (Star r) s2.
Proof.
  intros Hstar. remember (Star r) as e eqn:He. remember (String c s) as w eqn:Hw.
  induction Hstar as [ | | | | | | | |r' s1 s2 H1 _ H2 IH2]; try discriminate.
  injection He as ->. destruct s1 as [|c1 s1].
  - apply IH2; [reflexivity | exact Hw].
  - injection Hw as -> <-. exists s1, s2. auto.
Qed.

Lemma deriv_lang c r s : lang (deriv c r) s <-> lang r (String c s).
Proof.
  revert s. induction r as [| |d| | |r1 IH1 r2 IH2|r1 IH1 r2 IH2|r IH]; intros s; simpl.
  - split; inversion 1.
  - split; inversion 1.
  - destruct (Ascii.eqb c d) eqn:Hcd.
    + apply Ascii.eqb_eq in Hcd as ->. split.
      * inversion 1. constructor.
      * inversion 1. constructor.
    + split; [inversion 1|]. inversion 1; subst. rewrite Ascii.eqb_refl in Hcd.
      discriminate.
  - destruct (isLineTerminator c) eqn:Hc.
    + split; [inversion 1|]. inversion 1; subst. congruence.
    + split.
      * inversion 1. constructor. exact Hc.
      * inversion 1. constructor.
  - destruct (isDigit c) eqn:Hc.
    + split.
      * inversion 1. constructor. exact Hc.
      * inversion 1. constructor.
    + split; [inversion 1|]. inversion 1; subst. congruence.
  - assert (Hleft : forall w, lang (Cat (deriv c r1) r2) w -> lang (Cat r1 r2) (String c w)).
    { intros w Hw. apply lang_cat_inv in Hw as (s1 & s2 & -> & H1 & H2).
      apply IH1 in H1. change (String c (s1 +:+ s2)) with (String c s1 +:+ s2).
      constructor; assumption. }
    assert (Hback : lang (Cat r1 r2) (String c s) ->
                    lang (Cat (deriv c r1) r2) s
                    \/ (nullable r1 = true /\ lang (deriv c r2) s)).
    { intros Hcat. apply lang_cat_inv in Hcat as (s1 & s2 & Heq & H1 & H2).
      destruct s1 as [|c1 s1].
      - change (String c s = s2) in Heq. subst s2. right. split; [apply nullable_lang; exact H1|].
        apply IH2. exact H2.
      - injection Heq as <- ->. left. constructor; [apply IH1; exact H1 | exact H2]. }
    destruct (nullable r1) eqn:Hn.
    + split.
      * intros Halt. apply lang_alt_inv in Halt as [Hw|Hw]; [apply Hleft; exact Hw|].
        change (String c s) with (EmptyString +:+ String c s).
        constructor; [apply nullable_lang; exact Hn | apply IH2; exact Hw].
      * intros Hcat. destruct (Hback Hcat) as [Hw|[_ Hw]];
          [apply lang_alt_l | apply lang_alt_r]; exact Hw.
    + split; [apply Hleft|].
      intros Hcat. destruct (Hback Hcat) as [Hw|[Habs _]]; [exact Hw | discriminate].
  - split.
    + intros Halt. apply lang_alt_inv in Halt as [Hw|Hw];
        [apply lang_alt_l, IH1 | apply lang_alt_r, IH2]; exact Hw.
    + intros Halt. apply lang_alt_inv in Halt as [Hw|Hw];
        [apply lang_alt_l, IH1 | apply lang_alt_r, IH2]; exact Hw.
  - split.
    + intros Hcat. apply lang_cat_inv in Hcat as (s1 & s2 & -> & H1 & H2).
      apply IH in H1. change (String c (s1 +:+ s2)) with (String c s1 +:+ s2).
      constructor; assumption.
    + intros Hstar. apply lang_star_cons_inv in Hstar as (s1 & s2 & -> & H1 & H2).
      constructor; [apply IH; exact H1 | exact H2].
Qed.

(** [matchesPrefix r s] holds exactly when [s] starts with a word of [r]. *)
Theorem matchesPrefix_lang r s :
  matchesPrefix r s = true <-> exists word rest, s = word +:+ rest /\ lang r word.
Proof.
  revert r. induction s as [|c s IH]; intros r; cbn [matchesPrefix].
  - rewrite orb_false_r, nullable_lang. split.
    + intros Hr. exists EmptyString, EmptyString. auto.
    + intros (word & rest & Heq & Hr). symmetry in Heq.
      apply append_is_empty in Heq as [-> _]. exact Hr.
  - rewrite orb_true_iff, nullable_lang, IH. split.
    + intros [Hr | (word & rest & -> & Hr)].
      * exists EmptyString, (String c s). auto.
      * exists (String c word), rest. split; [reflexivity | apply deriv_lang; exact Hr].
    + intros ([|c' word] & rest & Heq & Hr).
      * left. exact Hr.
      * injection Heq as <- ->. right. exists word, rest.
        split; [reflexivity | apply deriv_lang; exact Hr].
Qed.

End RegexFacts.

(** The result bundle and the structured log are different paths. *)
Lemma bundle_not_structuredLog this now now' call call' :
  bundle now call <> structuredLog this now' call'.
Proof.
  intros Heq. apply (f_equal JS.last) in Heq.
  unfold bundle, structuredLog, xcresultPathOf in Heq.
  rewrite !last_append in Heq by discriminate. discriminate.
Qed.

(** [path.join] never yields the empty string. *)
Lemma path_join_truthy parts : JS.truthy (path.join parts) = true.
Proof.
  unfold path.join. destruct (List.filter JS.truthy parts) as [|p rest]; [reflexivity|].
  unfold path.normalize.
  destruct (JS.join "/" (p :: rest)) as [|c joined]; [reflexivity|].
  destruct (JS.join "/" _) as [|c' normal].
  - repeat (match goal with |- context [if ?b then _ else _] => destruct b end);
      reflexivity.
  - repeat (match goal with |- context [if ?b then _ else _] => destruct b end);
      reflexivity.
Qed.

(** ** An invocation is its child process followed by one of two blocks *)

Section Invocation.
Context `{Runtime}.

(** The block after the child process never throws. *)
Lemma completed_returns this now call stdout stderr st :
  exists r st', completed this now call stdout stderr st = (Return r, st').
Proof.
  pose proof (bundle_not_structuredLog this now now call call) as Hne.
  destruct call; unfold completed.
  - destruct (decide (structuredLog this now
                        (Build projectPath scheme configuration destination includeWarnings)
                      ∈ unwritable (fs st))) as [Hw|Hw].
    + eexists _, _. apply buildCompleted_refused. exact Hw.
    + destruct (buildCompleted_spec this includeWarnings (timestampOf now) _ _
                  stdout stderr st Hne Hw) as (st' & more & files & Heq & _).
      eexists _, _. exact Heq.
  - destruct (testCompleted_spec this (timestampOf now) _ _ stdout stderr st Hne)
      as (st' & more & files & Heq & _).
    eexists _, _. exact Heq.
Qed.

(** The block after the child process, in full: its result, the commands
    it runs and the files it writes. [refused] tells whether the system
    refuses the structured log. *)
Lemma completed_spec this now call stdout stderr st :
  let refused := bool_decide (structuredLog this now call ∈ unwritable (fs st)) in
  exists st' more files,
    completed this now call stdout stderr st =
      (Return
         (mkResult
            (negb (existsb (JS.includes stdout) (failureBanners call))
             && negb (isBuild call && refused))
            (if isBuild call && negb refused
             then JS.join (String JS.LF EmptyString)
                    (map renderLine (loggedLines call stdout))
             else stdout +:+ stderr)
            (rawLog this now call)),
       st')
    /\ executed st' =
         executed st ++
         (if existsPath (bundle now call) (fs st) && negb (isBuild call && refused)
          then xcresulttoolCommand "json" (bundle now call) :: more else [])
    /\ written st' =
         written st ++
         (if refused then (if isBuild call then [] else files)
          else (structuredLog this now call,
                JSON_stringify 2 (JArray (loggedLines call stdout))) :: files).
Proof.
  pose proof (bundle_not_structuredLog this now now call call) as Hne.
  intros refused. subst refused.
  destruct call; unfold completed; cbn [isBuild failureBanners loggedLines existsb].
  - destruct (decide (structuredLog this now
                        (Build projectPath scheme configuration destination includeWarnings)
                      ∈ unwritable (fs st))) as [Hw|Hw].
    + rewrite (bool_decide_eq_true_2 _ Hw). cbn [negb andb].
      exists st, [], []. rewrite buildCompleted_refused by exact Hw.
      rewrite !andb_false_r, !app_nil_r. auto.
    + rewrite (bool_decide_eq_false_2 _ Hw). cbn [negb andb].
      destruct (buildCompleted_spec this includeWarnings (timestampOf now) _ _
                  stdout stderr st Hne Hw) as (st' & more & files & Heq & He & Hf).
      exists st', more, files. rewrite Heq, He, Hf, !andb_true_r, orb_false_r. auto.
  - destruct (testCompleted_spec this (timestampOf now) _ _ stdout stderr st Hne)
      as (st' & more & files & Heq & He & Hf).
    exists st', more, files. rewrite Heq, He, Hf.
    rewrite !andb_true_r, orb_false_r, negb_orb. auto.
Qed.

Lemma invoke_child this now call st :
  invoke this now call st =
    match child this now call st with
    | (Resolved stdout stderr, st1) => completed this now call stdout stderr st1
    | (Rejected error, st1) => onExecError (rawLog this now call) error st1
    end.
Proof.
  pose proof (completed_returns this now call) as Hret.
  destruct call; unfold invoke, buildProject, runTests, child, started, completed in *;
    unfold mbind at 1; unfold M_bind, bind;
    rewrite prepareDirectory_returns; cbn [snd];
    unfold tryCatch at 1; unfold mbind at 1; unfold M_bind, bind, execAsync;
    cbv [command project reportsFolder kind bundle rawLog] in *;
    match goal with |- context [exec ?c ?d] => destruct (exec c d) as [[out err|e] d'] end;
    try reflexivity;
    match goal with
    | |- context [buildCompleted this _ _ _ _ ?o ?e ?s] =>
        destruct (Hret o e s) as (r & st' & ->)
    | |- context [testCompleted this _ _ _ ?o ?e ?s] =>
        destruct (Hret o e s) as (r & st' & ->)
    end;
    reflexivity.
Qed.

Lemma child_logs this now call st r st1 :
  child this now call st = (r, st1) ->
  executed st1 = executed st ++ [command this now call] /\ written st1 = written st.
Proof.
  unfold child, started.
  destruct (prepareDirectory_logs
              (path.join [path.dirname (project call); reportsFolder call]) st) as [He Hw].
  destruct (exec _ _) as [r' d]. intros [= <- <-]. simpl. rewrite He, Hw. auto.
Qed.

End Invocation.

(** ** The success flag *)

Section SuccessFlag.
Context `{Runtime}.

(** C1. When the child process of a build completes and its captured
    stdout contains the banner of a failed build, or that of a test run
    completes and its stdout contains the banner of a failed test or of a
    failed build, the invocation returns a result whose success flag is
    false; the exit code plays no part. *)
Theorem failure_banner_forces_failure this now call st stdout stderr st1 :
  child this now call st = (Resolved stdout stderr, st1) ->
  existsb (JS.includes stdout) (failureBanners call) = true ->
  exists r st', invoke this now call st = (Return r, st') /\ success r = false.
Proof.
  intros Hchild Hbanner. rewrite invoke_child, Hchild.
  destruct (completed_spec this now call stdout stderr st1)
    as (st' & more & files & Heq & _).
  eexists _, st'. split; [exact Heq|]. simpl. rewrite Hbanner. reflexivity.
Qed.

End SuccessFlag.

(** C1 on a failed build whose process exits cleanly. *)
Lemma failure_banner_forces_failure_witness :
  exists r st',
    @invoke Examples.failedBuild Examples.server Examples.now (Examples.buildCall false)
      (Examples.disk [])
    = (Return r, st')
    /\ success r = false.
Proof.
  eapply (@failure_banner_forces_failure Examples.failedBuild Examples.server
            Examples.now (Examples.buildCall false) (Examples.disk [])
            Examples.failedBuildOutput EmptyString).
  - vm_compute. reflexivity.
  - vm_compute. reflexivity.
Defined.

Section SuccessFlagAmended.
Context `{Runtime}.

(** C5. When the child process completes and its captured stdout contains
    no failure banner, a test invocation returns success = true, and a build
    invocation returns success = true exactly when its structured log could
    be written: a build whose structured log is refused returns
    success = false although its stdout holds no banner, where a test run
    in the same state returns success = true. *)
Theorem success_without_banner this now call st stdout stderr st1 :
  child this now call st = (Resolved stdout stderr, st1) ->
  existsb (JS.includes stdout) (failureBanners call) = false ->
  exists r st',
    invoke this now call st = (Return r, st')
    /\ success r =
         negb (isBuild call
               && bool_decide (structuredLog this now call ∈ unwritable (fs st1))).
Proof.
  intros Hchild Hbanner. rewrite invoke_child, Hchild.
  destruct (completed_spec this now call stdout stderr st1)
    as (st' & more & files & Heq & _).
  eexists _, st'. split; [exact Heq|]. simpl. rewrite Hbanner. reflexivity.
Qed.

(** C2, amended. When the child process exits cleanly and its stdout
    contains a failure banner, the invocation returns a result, not an
    exception, with success = false; a test run reports stdout followed by
    stderr, a build reports the lines it logs (the decoded lines that pass
    the filter, or all of them when warnings are requested) joined by line
    feeds, and falls back to stdout followed by stderr when the structured
    log cannot be written. *)
Theorem failure_banner_result this now call st stdout stderr st1 :
  child this now call st = (Resolved stdout stderr, st1) ->
  existsb (JS.includes stdout) (failureBanners call) = true ->
  exists st',
    invoke this now call st =
      (Return
         (mkResult false
            (if isBuild call
                && negb (bool_decide (structuredLog this now call ∈ unwritable (fs st1)))
             then JS.join (String JS.LF EmptyString)
                    (map renderLine (loggedLines call stdout))
             else stdout +:+ stderr)
            (rawLog this now call)),
       st').
Proof.
  intros Hchild Hbanner. rewrite invoke_child, Hchild.
  destruct (completed_spec this now call stdout stderr st1)
    as (st' & more & files & Heq & _).
  exists st'. rewrite Heq, Hbanner. reflexivity.
Qed.

End SuccessFlagAmended.

(** ** Failure of the child process *)

Section ExecFailure.
Context `{Runtime}.

Lemma onExecError_written logPath e st :
  logPath ∉ unwritable (fs st) ->
  exists st',
    onExecError logPath (ThrownError e) st =
      (Return (mkResult false (errorOutputOf e) logPath), st')
    /\ files (fs st') !! logPath = Some (errorOutputOf e)
    /\ written st' = written st ++ [(logPath, errorOutputOf e)]
    /\ executed st' = executed st.
Proof.
  intros Hw. unfold onExecError. unfold_monad.
  rewrite writeFile_writable by assumption.
  eexists. split; [reflexivity|]. simpl. rewrite lookup_insert_eq. auto.
Qed.

Lemma onExecError_refused logPath e st :
  logPath ∈ unwritable (fs st) ->
  onExecError logPath (ThrownError e) st =
    (Throw (errno "EACCES: permission denied, open" logPath), st).
Proof.
  intros Hw. unfold onExecError. unfold_monad.
  rewrite writeFile_refused by assumption. reflexivity.
Qed.


(** C6. When process execution fails with an [Error], the text of the
    failure is the message of the error, followed by a line feed and its
    stderr when it carries a non-empty one. When the raw log can be written,
    that text becomes the text of the raw log and the invocation returns
    success = false with that text as output and the path of the raw log;
    the error is not propagated. When the raw log cannot be written, no
    result is returned: the error of the refused write reaches the caller.
    A failure that is not an [Error] is raised again to the caller. *)
Theorem exec_failure_handling this now call st error st1 :
  child this now call st = (Rejected error, st1) ->
  (forall e, error = ThrownError e ->
     let errorOutput :=
       message e +:+
       match stderr e with
       | Some text => if JS.truthy text then String JS.LF text else EmptyString
       | None => EmptyString
       end in
     (rawLog this now call ∉ unwritable (fs st1) ->
      exists st',
        invoke this now call st =
          (Return (mkResult false errorOutput (rawLog this now call)), st')
        /\ files (fs st') !! rawLog this now call = Some errorOutput
        /\ written st' = written st ++ [(rawLog this now call, errorOutput)])
     /\ (rawLog this now call ∈ unwritable (fs st1) ->
         invoke this now call st =
           (Throw (errno "EACCES: permission denied, open" (rawLog this now call)),
            st1)))
  /\ (forall v, error = ThrownValue v ->
        invoke this now call st = (Throw (ThrownValue v), st1)).
Proof.
  intros Hchild. rewrite invoke_child, Hchild.
  destruct (child_logs _ _ _ _ _ _ Hchild) as [_ Hw1].
  split.
  - intros e -> errorOutput.
    change errorOutput with (errorOutputOf e). clear errorOutput. split.
    + intros Hw.
      destruct (onExecError_written (rawLog this now call) e st1 Hw)
        as (st' & Heq & Hfile & Hwr & _).
      exists st'. rewrite Hwr, Hw1. auto.
    + intros Hw. apply onExecError_refused. exact Hw.
  - intros v ->. reflexivity.
Qed.

End ExecFailure.

(** ** Requested warnings *)

Section Warnings.
Context `{Runtime}.

(** C8, amended. When the child process of a build with
    includeWarnings = true has completed and its structured log is written,
    no filter is applied: the text written to the structured log is the
    serialization of the full decoded sequence, and the output returned is
    that sequence, every line in its place, a text line as it is and a
    record serialized, joined by line feeds. *)
Theorem warnings_requested_keeps_every_line
    this now projectPath scheme configuration destination st stdout stderr st1 :
  child this now (Build projectPath scheme configuration destination true) st
    = (Resolved stdout stderr, st1) ->
  structuredLog this now (Build projectPath scheme configuration destination true)
    ∉ unwritable (fs st1) ->
  exists r st' files,
    invoke this now (Build projectPath scheme configuration destination true) st
      = (Return r, st')
    /\ output r =
         JS.join (String JS.LF EmptyString)
           (map (fun line => match line with
                             | JString text => text
                             | _ => JSON_stringify 0 line
                             end)
              (decodeOutput stdout))
    /\ written st' =
         written st ++
         (structuredLog this now (Build projectPath scheme configuration destination true),
          JSON_stringify 2 (JArray (decodeOutput stdout))) :: files.
Proof.
  intros Hchild Hw. rewrite invoke_child, Hchild.
  destruct (child_logs _ _ _ _ _ _ Hchild) as [_ Hw1].
  destruct (completed_spec this now
              (Build projectPath scheme configuration destination true)
              stdout stderr st1)
    as (st' & more & files & Heq & _ & Hwr).
  rewrite (bool_decide_eq_false_2 _ Hw) in Heq, Hwr.
  eexists _, st', files. split; [exact Heq|]. simpl. rewrite Hwr, Hw1. auto.
Qed.

End Warnings.

(** ** Result-bundle post-processing *)

Section PostProcessing.
Context `{Runtime}.


End PostProcessing.

(** ** The properties on concrete invocations *)

(** C5 on a clean build whose structured log is refused: the result
    reports a failure. *)
Lemma success_without_banner_witness :
  exists r st',
    @invoke Examples.cleanBuild Examples.server Examples.now (Examples.buildCall false)
      (Examples.disk [Examples.buildLog +:+ ".json"])
    = (Return r, st')
    /\ success r = false.
Proof.
  destruct (@success_without_banner Examples.cleanBuild Examples.server Examples.now
              (Examples.buildCall false) (Examples.disk [Examples.buildLog +:+ ".json"])
              Examples.succeededBuildOutput EmptyString
              (snd (@child Examples.cleanBuild Examples.server Examples.now
                      (Examples.buildCall false)
                      (Examples.disk [Examples.buildLog +:+ ".json"]))))
    as (r & st' & Hinvoke & Hsuccess).
  - vm_compute. reflexivity.
  - vm_compute. reflexivity.
  - exists r, st'. split; [exact Hinvoke|]. rewrite Hsuccess. vm_compute. reflexivity.
Defined.

(** C5 fails on the code: a clean build whose structured log cannot be
    written is reported with success = false. *)
Lemma clean_build_reported_failed :
  fst (@child Examples.cleanBuild Examples.server Examples.now (Examples.buildCall false)
         (Examples.disk [Examples.buildLog +:+ ".json"]))
  = Resolved Examples.succeededBuildOutput EmptyString
  /\ existsb (JS.includes Examples.succeededBuildOutput)
       (failureBanners (Examples.buildCall false)) = false
  /\ fst (@invoke Examples.cleanBuild Examples.server Examples.now
            (Examples.buildCall false) (Examples.disk [Examples.buildLog +:+ ".json"]))
     = Return (mkResult false Examples.succeededBuildOutput Examples.buildLog).
Proof.
  repeat split; vm_compute; reflexivity.
Qed.

(** C2, amended, on a failed test run. *)
Lemma failure_banner_result_witness :
  exists st',
    @invoke Examples.failedTests Examples.server Examples.now Examples.testCall
      (Examples.disk [])
    = (Return (mkResult false Examples.failedTestOutput Examples.testLog), st').
Proof.
  destruct (@failure_banner_result Examples.failedTests Examples.server Examples.now
              Examples.testCall (Examples.disk []) Examples.failedTestOutput EmptyString
              (snd (@child Examples.failedTests Examples.server Examples.now
                      Examples.testCall (Examples.disk []))))
    as [st' Hst'].
  - vm_compute. reflexivity.
  - vm_compute. reflexivity.
  - exists st'. rewrite Hst'. vm_compute. reflexivity.
Defined.

(** C2 as stated fails: a failed build reports the lines that pass the
    filter, not the full captured output. *)
Lemma failed_build_output_is_filtered :
  fst (@child Examples.failedBuild Examples.server Examples.now (Examples.buildCall false)
         (Examples.disk []))
  = Resolved Examples.failedBuildOutput EmptyString
  /\ exists r,
       fst (@invoke Examples.failedBuild Examples.server Examples.now
              (Examples.buildCall false) (Examples.disk []))
       = Return r
       /\ success r = false
       /\ output r =
            template
              [ Reference.stringify 0
                  (JObject [("type", JString "diagnostic");
                            ("diagnostic", JObject [("severity", JString "error")])]);
                Examples.nl; "** BUILD FAILED **" ]
       /\ String.eqb (output r) (Examples.failedBuildOutput +:+ EmptyString) = false.
Proof.
  split; [vm_compute; reflexivity|].
  eexists. split; [vm_compute; reflexivity|].
  cbn [success output]. repeat split; vm_compute; reflexivity.
Qed.

(** C6 on a test run whose pipeline fails with an [Error] while the raw
    log is refused: the error of the write is thrown. *)
Lemma exec_failure_handling_witness :
  @invoke Examples.brokenPipe Examples.server Examples.now Examples.testCall
    (Examples.disk [Examples.testLog])
  = (Throw (errno "EACCES: permission denied, open"
              (rawLog Examples.server Examples.now Examples.testCall)),
     snd (@child Examples.brokenPipe Examples.server Examples.now Examples.testCall
            (Examples.disk [Examples.testLog]))).
Proof.
  destruct (@exec_failure_handling Examples.brokenPipe Examples.server Examples.now
              Examples.testCall (Examples.disk [Examples.testLog])
              (ThrownError Examples.execFailure)
              (snd (@child Examples.brokenPipe Examples.server Examples.now
                      Examples.testCall (Examples.disk [Examples.testLog]))))
    as [Herror _].
  - vm_compute. reflexivity.
  - destruct (Herror Examples.execFailure eq_refl) as [_ Hrefused].
    apply Hrefused. eapply bool_decide_eq_true_1. vm_compute. reflexivity.
Defined.

(** C6 fails on the code: when the raw log cannot be written, a failure of
    process execution with an [Error] yields no result; the error of the
    write is raised, and nothing is written. *)
Lemma exec_failure_with_unwritable_log :
  fst (@child Examples.brokenPipe Examples.server Examples.now Examples.testCall
         (Examples.disk [Examples.testLog]))
  = Rejected (ThrownError Examples.execFailure)
  /\ fst (@invoke Examples.brokenPipe Examples.server Examples.now Examples.testCall
            (Examples.disk [Examples.testLog]))
     = Throw (errno "EACCES: permission denied, open" Examples.testLog)
  /\ written (snd (@invoke Examples.brokenPipe Examples.server Examples.now
                     Examples.testCall (Examples.disk [Examples.testLog])))
     = [].
Proof.
  repeat split; vm_compute; reflexivity.
Qed.

(** C8, amended, on a failed build with warnings requested: the note and
    the warning record are returned and persisted with the rest. *)
Lemma warnings_requested_keeps_every_line_witness :
  exists r st' files,
    @invoke Examples.failedBuild Examples.server Examples.now (Examples.buildCall true)
      (Examples.disk [])
    = (Return r, st')
    /\ output r =
         template
           [ "note: Using new build system"; Examples.nl;
             Reference.stringify 0
               (JObject [("type", JString "diagnostic");
                         ("diagnostic", JObject [("severity", JString "warning")])]);
             Examples.nl;
             Reference.stringify 0
               (JObject [("type", JString "diagnostic");
                         ("diagnostic", JObject [("severity", JString "error")])]);
             Examples.nl;
             "** BUILD FAILED **" ]
    /\ written st' =
         (structuredLog Examples.server Examples.now (Examples.buildCall true),
          Reference.stringify 2
            (JArray (@decodeOutput Examples.failedBuild Examples.failedBuildOutput)))
         :: files.
Proof.
  destruct (@warnings_requested_keeps_every_line Examples.failedBuild Examples.server
              Examples.now "/work/App.xcodeproj" "App" "Debug" None (Examples.disk [])
              Examples.failedBuildOutput EmptyString
              (snd (@child Examples.failedBuild Examples.server Examples.now
                      (Examples.buildCall true) (Examples.disk []))))
    as (r & st' & files & Hinvoke & Houtput & Hwritten).
  - vm_compute. reflexivity.
  - eapply bool_decide_eq_false_1. vm_compute. reflexivity.
  - exists r, st', files. split; [exact Hinvoke|]. split; [|exact Hwritten].
    rewrite Houtput. vm_compute. reflexivity.
Defined.

(** C8 as stated fails. After a failed child process nothing is decoded:
    the build returns the text of the failure and persists no line
    sequence. After a completed one whose structured log is refused, the
    build persists nothing and returns the captured output as it is, which
    is not the decoded sequence: the blank line is still there. *)
Lemma warnings_build_without_line_sequence :
  (fst (@invoke Examples.brokenPipe Examples.server Examples.now
          (Examples.buildCall true) (Examples.disk []))
   = Return (mkResult false (errorOutputOf Examples.execFailure) Examples.buildLog)
   /\ written (snd (@invoke Examples.brokenPipe Examples.server Examples.now
                      (Examples.buildCall true) (Examples.disk [])))
      = [(Examples.buildLog, errorOutputOf Examples.execFailure)])
  /\ fst (@child Examples.spacedBuild Examples.server Examples.now
            (Examples.buildCall true) (Examples.disk [Examples.buildLog +:+ ".json"]))
     = Resolved Examples.spacedOutput EmptyString
  /\ fst (@invoke Examples.spacedBuild Examples.server Examples.now
            (Examples.buildCall true) (Examples.disk [Examples.buildLog +:+ ".json"]))
     = Return (mkResult false Examples.spacedOutput Examples.buildLog)
  /\ written (snd (@invoke Examples.spacedBuild Examples.server Examples.now
                     (Examples.buildCall true)
                     (Examples.disk [Examples.buildLog +:+ ".json"])))
     = []
  /\ JS.join Examples.nl
       (map (@renderLine Examples.spacedBuild)
          (@decodeOutput Examples.spacedBuild Examples.spacedOutput))
     = template ["note: first"; Examples.nl; "note: second"]
  /\ String.eqb Examples.spacedOutput
       (JS.join Examples.nl
          (map (@renderLine Examples.spacedBuild)
             (@decodeOutput Examples.spacedBuild Examples.spacedOutput)))
     = false.
Proof.
  repeat split; vm_compute; reflexivity.
Qed.



(** ** Decoding and filtering the captured output *)

Lemma isStr_spec v s : isStr v s = true <-> v = Some (JString s).
Proof.
  unfold isStr. destruct v as [[| | |t| |]|]; split; try discriminate.
  - intros Heq. apply String.eqb_eq in Heq. subst. reflexivity.
  - intros [= ->]. apply String.eqb_refl.
Qed.

Lemma truthy_trimEnd s : JS.truthy (JS.trimEnd s) = negb (JS.isBlank s).
Proof.
  unfold JS.isBlank. induction s as [|c s IH]; [reflexivity|].
  simpl. destruct (JS.trimEnd s); simpl in *.
  - destruct (JS.isWhiteSpace c); simpl; [exact IH|].
    reflexivity.
  - destruct (JS.isWhiteSpace c); simpl; [exact IH|reflexivity].
Qed.

Lemma isBlank_trimStart s : JS.isBlank (JS.trimStart s) = JS.isBlank s.
Proof.
  unfold JS.isBlank. induction s as [|c s IH]; [reflexivity|].
  simpl. destruct (JS.isWhiteSpace c) eqn:Hc; simpl; [exact IH|].
  rewrite Hc. reflexivity.
Qed.

(** [line.trim()] is truthy exactly when the line is not blank. *)
Lemma truthy_trim line : JS.truthy (JS.trim line) = negb (JS.isBlank line).
Proof.
  unfold JS.trim. rewrite truthy_trimEnd, isBlank_trimStart. reflexivity.
Qed.

Section Decoding.
Context `{Runtime}.

(** C7, amended. The decoding step keeps the lines of the captured stdout
    that are not blank, that is, that hold a character other than white
    space; it maps each of them to its JSON-decoded value, or to the line
    itself, unchanged, when JSON decoding fails; the decoded sequence is as
    long as the sequence of lines that are not blank. *)
Theorem decoding_keeps_non_blank_lines stdout :
  decodeOutput stdout =
    map (fun line => match JSON_parse line with
                     | Some v => v
                     | None => JString line
                     end)
      (List.filter (fun line => negb (JS.isBlank line)) (JS.split JS.LF stdout))
  /\ length (decodeOutput stdout) =
       length (List.filter (fun line => negb (JS.isBlank line)) (JS.split JS.LF stdout)).
Proof.
  assert (Hfilter :
    List.filter (fun line => JS.truthy (JS.trim line)) (JS.split JS.LF stdout)
    = List.filter (fun line => negb (JS.isBlank line)) (JS.split JS.LF stdout)).
  { apply List.filter_ext. intros line. apply truthy_trim. }
  unfold decodeOutput. rewrite Hfilter. split; [reflexivity|].
  apply length_map.
Qed.

(** C3. For a build with includeWarnings = false, a decoded record is among
    the lines the build logs and returns exactly when it is among the
    decoded lines, its type is "diagnostic" and the severity of its
    diagnostic is "error"; so a record of severity "warning" is absent and a
    decoded diagnostic record of severity "error" is present. *)
Theorem filter_retains_error_records
    projectPath scheme configuration destination stdout fields :
  let logged :=
    loggedLines (Build projectPath scheme configuration destination false) stdout in
  let record := JObject fields in
  let severity := prop "diagnostic" record ≫= prop "severity" in
  (In record logged <->
     In record (decodeOutput stdout)
     /\ prop "type" record = Some (JString "diagnostic")
     /\ severity = Some (JString "error"))
  /\ (severity = Some (JString "warning") -> ~ In record logged)
  /\ (In record (decodeOutput stdout) ->
      prop "type" record = Some (JString "diagnostic") ->
      severity = Some (JString "error") ->
      In record logged).
Proof.
  intros logged record severity.
  assert (Hiff : In record logged <->
                 In record (decodeOutput stdout)
                 /\ prop "type" record = Some (JString "diagnostic")
                 /\ severity = Some (JString "error")).
  { subst logged. unfold loggedLines, filteredOutput, filterBuildOutput.
    rewrite List.filter_In. subst record severity. cbn [significant].
    rewrite <- !isStr_spec.
    destruct (isStr (prop "type" (JObject fields)) "diagnostic"); intuition congruence. }
  split; [exact Hiff|]. split.
  - intros Hwarning Hin. apply Hiff in Hin as (_ & _ & Herror). congruence.
  - intros Hin Htype Hsev. apply Hiff. auto.
Qed.

End Decoding.

(** C7 as stated fails: a line that holds only a space is not empty, and is
    not decoded. *)
Lemma blank_line_is_not_decoded :
  length (List.filter JS.truthy (JS.split JS.LF Examples.spacedOutput)) = 3
  /\ length (@decodeOutput Examples.cleanBuild Examples.spacedOutput) = 2.
Proof.
  split; vm_compute; reflexivity.
Qed.

(** C3 on the output of a failed build: the error record is kept, the
    warning record is not. *)
Lemma filter_retains_error_records_witness :
  In (JObject [("type", JString "diagnostic");
               ("diagnostic", JObject [("severity", JString "error")])])
     (@loggedLines Examples.failedBuild
        (Build "/work/App.xcodeproj" "App" "Debug" None false)
        Examples.failedBuildOutput)
  /\ ~ In (JObject [("type", JString "diagnostic");
                    ("diagnostic", JObject [("severity", JString "warning")])])
          (@loggedLines Examples.failedBuild
             (Build "/work/App.xcodeproj" "App" "Debug" None false)
             Examples.failedBuildOutput).
Proof.
  split.
  - pose proof (@filter_retains_error_records Examples.failedBuild
                  "/work/App.xcodeproj" "App" "Debug" None Examples.failedBuildOutput
                  [("type", JString "diagnostic");
                   ("diagnostic", JObject [("severity", JString "error")])])
      as (_ & _ & Hpresent).
    apply Hpresent; [|reflexivity|reflexivity].
    vm_compute. auto.
  - pose proof (@filter_retains_error_records Examples.failedBuild
                  "/work/App.xcodeproj" "App" "Debug" None Examples.failedBuildOutput
                  [("type", JString "diagnostic");
                   ("diagnostic", JObject [("severity", JString "warning")])])
      as (_ & Habsent & _).
    apply Habsent. reflexivity.
Defined.

(** ** Skip flags *)

Lemma template_app l1 l2 : template (l1 ++ l2) = template l1 +:+ template l2.
Proof.
  unfold template. induction l1 as [|piece l1 IH]; [reflexivity|].
  cbn [app fold_right]. rewrite IH. symmetry. apply append_assoc.
Qed.

(** C4. The flags of a test invocation are [test], then the
    [-only-testing:] term when a test identifier is given, then, after a
    space, one term per entry of skipTests, in the order of the entries and
    separated by single spaces; a term is [-skip-testing:] followed by the
    entry as it is, with no quote around it and no escape in it. The
    command holds these flags between [clean] and the redirection, in the
    same text in which it puts the project path between double quotes. *)
Theorem skip_entries_are_inserted_verbatim this now projectPath scheme configuration
    testIdentifier skipTests destination :
  testFlags testIdentifier (Some skipTests) =
    testFlags testIdentifier None +:+
    match skipTests with
    | [] => EmptyString
    | _ => " " +:+ JS.join " " (map (String.append "-skip-testing:") skipTests)
    end
  /\ exists between,
       command this now
         (Test projectPath scheme configuration testIdentifier (Some skipTests)
            destination)
       = "which xcodebuild && xcodebuild -project " +:+ quoted projectPath
           +:+ between
           +:+ "clean " +:+ testFlags testIdentifier (Some skipTests)
           +:+ " 2>&1 | tee "
           +:+ rawLog this now
                 (Test projectPath scheme configuration testIdentifier (Some skipTests)
                    destination).
Proof.
  split.
  - unfold testFlags. destruct skipTests; [|reflexivity].
    destruct testIdentifier as [id|]; [destruct (JS.truthy id)|];
      simpl; rewrite ?append_empty; reflexivity.
  - set (call := Test projectPath scheme configuration testIdentifier (Some skipTests)
                   destination).
    set (flags := testFlags testIdentifier (Some skipTests)).
    set (options :=
           [ continued; "-scheme "; quoted scheme; continued;
             "-configuration "; quoted (default "Debug" configuration); continued;
             "-destination '"; default defaultDestination destination; "'"; continued;
             "-resultBundlePath "; quoted (bundle now call); continued;
             "-enableCodeCoverage YES"; continued;
             "-UseModernBuildSystem=YES"; continued;
             "-json"; continued ]).
    exists (template options).
    assert (Hcommand :
      command this now call
      = template (["which xcodebuild && xcodebuild -project "; quoted projectPath]
                  ++ options
                  ++ ["clean "; flags; " 2>&1 | tee "; rawLog this now call]))
      by reflexivity.
    rewrite Hcommand, !template_app.
    assert (Hhead : template ["which xcodebuild && xcodebuild -project ";
                              quoted projectPath]
                    = "which xcodebuild && xcodebuild -project " +:+ quoted projectPath).
    { unfold template. cbn [fold_right]. rewrite append_empty. reflexivity. }
    assert (Htail : template ["clean "; flags; " 2>&1 | tee "; rawLog this now call]
                    = "clean " +:+ flags +:+ " 2>&1 | tee " +:+ rawLog this now call).
    { unfold template. cbn [fold_right]. rewrite append_empty. reflexivity. }
    rewrite Hhead, Htail. apply append_assoc.
Qed.

(** C4 on a skip entry that holds a space: the entry stands in the command
    as it is, space included, between no quotes. *)
Lemma skip_entries_are_inserted_verbatim_witness :
  testFlags None (Some ["My Tests/testA"]) = "test -skip-testing:My Tests/testA"
  /\ exists between,
       command Examples.server Examples.now
         (Test "/work/App.xcodeproj" "App" None None (Some ["My Tests/testA"]) None)
       = "which xcodebuild && xcodebuild -project " +:+ quoted "/work/App.xcodeproj"
           +:+ between
           +:+ "clean test -skip-testing:My Tests/testA 2>&1 | tee "
           +:+ Examples.testLog.
Proof.
  destruct (skip_entries_are_inserted_verbatim Examples.server Examples.now
              "/work/App.xcodeproj" "App" None None ["My Tests/testA"] None)
    as (Hflags & between & Hcommand).
  split; [exact Hflags|].
  exists between. exact Hcommand.
Defined.

(** ** Arguments that pass a guard are read in full *)

Lemma asObject_some args a : asObject args = Some a -> args = Some a.
Proof.
  destruct args as [[| | | | |]|]; simpl; congruence.
Qed.

Lemma isStringProp_stringArg k a :
  isStringProp k a = true -> exists s, stringArg k a = Some s.
Proof.
  unfold isStringProp, stringArg.
  destruct (prop k a) as [[| | |s| |]|]; simpl; try discriminate. eauto.
Qed.

Lemma build_guard_reads arguments :
  isBuildOptions arguments = true ->
  exists projectPath scheme configuration destination includeWarnings,
    toolInvocation "build_project" arguments =
      inr (Build projectPath scheme configuration destination includeWarnings).
Proof.
  intros Hguard. unfold toolInvocation. rewrite Hguard. cbn [String.eqb Ascii.eqb negb].
  unfold isBuildOptions in Hguard.
  destruct (isBuildArguments arguments) eqn:Hargs; [|discriminate].
  unfold isBuildArguments in Hargs.
  destruct (asObject arguments) as [a|] eqn:Ha; [|discriminate].
  apply asObject_some in Ha as ->.
  apply andb_true_iff in Hargs as [Hargs _]. apply andb_true_iff in Hargs as [Hargs _].
  apply andb_true_iff in Hargs as [Hp Hs].
  destruct (isStringProp_stringArg _ _ Hp) as [p Hp'].
  destruct (isStringProp_stringArg _ _ Hs) as [sch Hs'].
  simpl. rewrite Hp', Hs'. eauto 6.
Qed.

Lemma test_guard_reads arguments :
  isTestArguments arguments = true ->
  exists projectPath scheme configuration testIdentifier skipTests destination,
    toolInvocation "run_tests" arguments =
      inr (Test projectPath scheme configuration testIdentifier skipTests destination).
Proof.
  intros Hguard. unfold toolInvocation. rewrite Hguard. cbn [String.eqb Ascii.eqb negb].
  unfold isTestArguments in Hguard.
  destruct (asObject arguments) as [a|] eqn:Ha; [|discriminate].
  apply asObject_some in Ha as ->.
  apply andb_true_iff in Hguard as [Hguard _]. apply andb_true_iff in Hguard as [Hguard _].
  apply andb_true_iff in Hguard as [Hguard _]. apply andb_true_iff in Hguard as [Hguard _].
  apply andb_true_iff in Hguard as [Hp Hs].
  destruct (isStringProp_stringArg _ _ Hp) as [p Hp'].
  destruct (isStringProp_stringArg _ _ Hs) as [sch Hs'].
  simpl. rewrite Hp', Hs'. eauto 7.
Qed.

(** ** The latest-log resource *)

Section LatestLog.
Context `{Runtime}.

(** Without a result bundle, the block after the child process leaves the
    raw log as the child process wrote it: the one file it writes is the
    structured log. *)
Lemma completed_keeps_raw_log this now call stdout stderr st :
  existsPath (bundle now call) (fs st) = false ->
  files (fs (snd (completed this now call stdout stderr st))) !! rawLog this now call
  = files (fs st) !! rawLog this now call.
Proof.
  intros Hbundle.
  assert (Hne : structuredLog this now call <> rawLog this now call).
  { unfold structuredLog. intros Heq. apply (f_equal String.length) in Heq.
    rewrite length_append in Heq. simpl in Heq. lia. }
  pose proof (bundle_not_structuredLog this now now call call) as Hnb.
  destruct call; unfold completed, buildCompleted, testCompleted, existsSync, writeFile;
    unfold_monad.
  - fold (structuredLog this now
            (Build projectPath scheme configuration destination includeWarnings)).
    destruct (bool_decide (_ ∈ unwritable (fs st))); simpl; [reflexivity|].
    rewrite existsPath_insert by assumption. rewrite Hbundle. simpl.
    rewrite lookup_insert_ne by assumption. reflexivity.
  - fold (structuredLog this now
            (Test projectPath scheme configuration testIdentifier skipTests destination)).
    destruct (bool_decide (_ ∈ unwritable (fs st))); simpl.
    + rewrite Hbundle. reflexivity.
    + rewrite existsPath_insert by assumption. rewrite Hbundle. simpl.
      rewrite lookup_insert_ne by assumption. reflexivity.
Qed.

(** A result always carries the raw log path of its invocation. *)
Lemma invoke_logPath this now call st r st' :
  invoke this now call st = (Return r, st') -> logPath r = rawLog this now call.
Proof.
  rewrite invoke_child. destruct (child this now call st) as [[stdout stderr|error] st1].
  - destruct (completed_spec this now call stdout stderr st1)
      as (st2 & more & files & -> & _).
    intros [= <- _]. reflexivity.
  - destruct error as [e|v]; [|discriminate].
    destruct (decide (rawLog this now call ∈ unwritable (fs st1))) as [Hw|Hw].
    + rewrite onExecError_refused by assumption. discriminate.
    + destruct (onExecError_written (rawLog this now call) e st1 Hw) as (st2 & -> & _).
      intros [= <- _]. reflexivity.
Qed.

Lemma readResource_latest this log text st :
  latestBuildLog this = Some log ->
  JS.truthy log = true ->
  files (fs st) !! log = Some text ->
  readResource this latestLogUri st =
    (Return [mkContents latestLogUri "text/plain" text], st).
Proof.
  intros Hlog Htruthy Hfile. unfold readResource. rewrite Hlog, Htruthy.
  simpl. unfold readFile. unfold_monad. rewrite Hfile. reflexivity.
Qed.

(** C9. A server that has just been constructed lists no resource. Every
    build or test invocation that returns a result leaves the latest-log
    pointer at the raw log path of that result, whether the result reports
    success or failure; the server then lists exactly one resource, and
    reading it yields the text of the raw log at that path: after a failed
    child process the message the invocation has just written there, after
    a completed one the text found there, which, when no result bundle
    calls for extraction, is the text the child process left. *)
Theorem latest_log_pointer :
  (forall dir this, newServer dir = inr this -> listResources this = [])
  /\ (forall this now toolName arguments call st result st',
        toolInvocation toolName arguments = inr call ->
        invoke this now call st = (Return result, st') ->
        exists response this',
          callTool this now toolName arguments st = (Return (response, this'), st')
          /\ latestBuildLog this' = Some (logPath result)
          /\ logPath result = rawLog this now call
          /\ isError response = negb (success result)
          /\ listResources this' =
               [mkResource latestLogUri "Latest Xcode Build Log" "text/plain"
                  "Most recent Xcode build output"]
          /\ (forall text,
                files (fs st') !! logPath result = Some text ->
                readResource this' latestLogUri st' =
                  (Return [mkContents latestLogUri "text/plain" text], st'))
          /\ (forall e,
                fst (child this now call st) = Rejected (ThrownError e) ->
                readResource this' latestLogUri st' =
                  (Return [mkContents latestLogUri "text/plain" (errorOutputOf e)], st')
                /\ output result = errorOutputOf e)
          /\ (forall stdout stderr st1,
                child this now call st = (Resolved stdout stderr, st1) ->
                existsPath (bundle now call) (fs st1) = false ->
                files (fs st') !! logPath result
                = files (fs st1) !! rawLog this now call)).
Proof.
  split.
  - intros dir this. unfold newServer. destruct (negb (JS.truthy dir)); [discriminate|].
    intros [= <-]. reflexivity.
  - intros this now toolName arguments call st result st' Hcall Hinvoke.
    pose proof (invoke_logPath _ _ _ _ _ _ Hinvoke) as Hpath.
    assert (Htruthy : JS.truthy (logPath result) = true).
    { rewrite Hpath. apply path_join_truthy. }
    exists (fst (respond this result)), (snd (respond this result)).
    split; [|split; [|split; [|split; [|split; [|split; [|split]]]]]].
    + unfold callTool. rewrite Hcall. unfold_monad. rewrite Hinvoke.
      simpl. reflexivity.
    + reflexivity.
    + exact Hpath.
    + reflexivity.
    + unfold listResources. simpl. rewrite Htruthy. reflexivity.
    + intros text Hfile. eapply readResource_latest; eauto.
    + intros e Hchild.
      rewrite invoke_child in Hinvoke.
      destruct (child this now call st) as [outcome st1]. simpl in Hchild. subst outcome.
      destruct (decide (rawLog this now call ∈ unwritable (fs st1))) as [Hw|Hw].
      * rewrite onExecError_refused in Hinvoke by assumption. discriminate.
      * destruct (onExecError_written (rawLog this now call) e st1 Hw)
          as (st2 & Heq & Hfile & _).
        rewrite Heq in Hinvoke. injection Hinvoke as <- <-.
        split; [|reflexivity].
        eapply readResource_latest; eauto.
    + intros stdout stderr st1 Hchild Hbundle.
      rewrite invoke_child, Hchild in Hinvoke.
      pose proof (completed_keeps_raw_log this now call stdout stderr st1 Hbundle) as Hkeep.
      rewrite Hinvoke in Hkeep. rewrite Hpath. exact Hkeep.
Qed.

End LatestLog.

(** C9 on a first build: the pointer, the one resource and its text. *)
Lemma latest_log_pointer_witness :
  exists response this',
    fst (@callTool Examples.failedBuild Examples.server Examples.now "build_project"
           (Reference.parse
              (Reference.stringify 0
                 (JObject [("projectPath", JString "/work/App.xcodeproj");
                           ("scheme", JString "App")])))
           (Examples.disk []))
    = Return (response, this')
    /\ latestBuildLog this' = Some Examples.buildLog
    /\ length (@listResources this') = 1
    /\ fst (@readResource this' latestLogUri
              (snd (@callTool Examples.failedBuild Examples.server Examples.now
                      "build_project"
                      (Reference.parse
                         (Reference.stringify 0
                            (JObject [("projectPath", JString "/work/App.xcodeproj");
                                      ("scheme", JString "App")])))
                      (Examples.disk []))))
       = Return [mkContents latestLogUri "text/plain" Examples.failedBuildOutput].
Proof.
  destruct (@latest_log_pointer Examples.failedBuild) as [_ Hpointer].
  destruct (Hpointer Examples.server Examples.now "build_project"
              (Reference.parse
                 (Reference.stringify 0
                    (JObject [("projectPath", JString "/work/App.xcodeproj");
                              ("scheme", JString "App")])))
              (Examples.buildCall false) (Examples.disk [])
              (mkResult false
                 (template
                    [ Reference.stringify 0
                        (JObject [("type", JString "diagnostic");
                                  ("diagnostic", JObject [("severity", JString "error")])]);
                      Examples.nl; "** BUILD FAILED **" ])
                 Examples.buildLog)
              (snd (@invoke Examples.failedBuild Examples.server Examples.now
                      (Examples.buildCall false) (Examples.disk []))))
    as (response & this' & Hcall & Hlatest & _ & _ & Hlist & Hread & _ & _).
  - vm_compute. reflexivity.
  - vm_compute. reflexivity.
  - exists response, this'. rewrite Hcall, Hlist. cbn [fst snd].
    split; [reflexivity|]. split; [exact Hlatest|]. split; [reflexivity|].
    rewrite (Hread Examples.failedBuildOutput); [reflexivity|].
    vm_compute. reflexivity.
Defined.

(** * Further properties of the server *)

(** ** The timestamp token *)

Lemma includes_char_cons c x s :
  JS.includes (String x s) (String c EmptyString) =
    Ascii.eqb c x || JS.includes s (String c EmptyString).
Proof.
  cbn [JS.includes JS.startsWith]. rewrite andb_true_r. reflexivity.
Qed.

(** X1. The timestamp token of an invocation is as long as the clock text
    it is made from, holds neither a colon nor a period, and is left as it is
    by a second normalization; a character other than these two stays in
    place. *)
Theorem timestamp_is_file_name_safe now :
  String.length (timestampOf now) = String.length now
  /\ JS.includes (timestampOf now) ":" = false
  /\ JS.includes (timestampOf now) "." = false
  /\ timestampOf (timestampOf now) = timestampOf now
  /\ (forall n c,
        String.get n now = Some c -> c <> ":"%char -> c <> "."%char ->
        String.get n (timestampOf now) = Some c).
Proof.
  unfold timestampOf. repeat split.
  - induction now as [|c now IH]; [reflexivity|]. simpl. rewrite IH. reflexivity.
  - induction now as [|c now IH]; [reflexivity|].
    cbn [JS.replaceColonPeriod]. rewrite includes_char_cons, IH, orb_false_r.
    destruct (Ascii.eqb c ":") eqn:Hc; [reflexivity|].
    destruct (Ascii.eqb c ".") eqn:Hd; [reflexivity|].
    cbn [orb]. rewrite Ascii.eqb_sym. exact Hc.
  - induction now as [|c now IH]; [reflexivity|].
    cbn [JS.replaceColonPeriod]. rewrite includes_char_cons, IH, orb_false_r.
    destruct (Ascii.eqb c ":") eqn:Hc; [reflexivity|].
    destruct (Ascii.eqb c ".") eqn:Hd; [reflexivity|].
    cbn [orb]. rewrite Ascii.eqb_sym. exact Hd.
  - induction now as [|c now IH]; [reflexivity|].
    cbn [JS.replaceColonPeriod]. rewrite IH. f_equal.
    destruct (Ascii.eqb c ":") eqn:Hc; [reflexivity|].
    destruct (Ascii.eqb c ".") eqn:Hd; [reflexivity|].
    cbn [orb]. rewrite Hc, Hd. reflexivity.
  - induction now as [|x now IH]; intros n c Hget Hcolon Hperiod; [discriminate|].
    destruct n as [|n]; simpl in *.
    + injection Hget as ->.
      destruct (Ascii.eqb c ":") eqn:Hc; [apply Ascii.eqb_eq in Hc; contradiction|].
      destruct (Ascii.eqb c ".") eqn:Hd; [apply Ascii.eqb_eq in Hd; contradiction|].
      reflexivity.
    + apply IH; assumption.
Qed.

(** ** Decoding, line by line *)

Lemma split_append sep a b :
  JS.split sep (a +:+ String sep b) = JS.split sep a ++ JS.split sep b.
Proof.
  induction a as [|c a IH].
  - change (JS.split sep (String sep b) = [EmptyString] ++ JS.split sep b).
    cbn [JS.split]. rewrite Ascii.eqb_refl. reflexivity.
  - change (JS.split sep (String c (a +:+ String sep b))
            = JS.split sep (String c a) ++ JS.split sep b).
    cbn [JS.split]. rewrite IH. destruct (Ascii.eqb c sep); [reflexivity|].
    pose proof (split_not_nil sep a) as Hne.
    destruct (JS.split sep a) as [|h t]; [contradiction|]. reflexivity.
Qed.

Section DecodingComposes.
Context `{Runtime}.

(** X2. Decoding works line by line: an empty capture decodes to no line,
    the capture of two texts separated by a line feed decodes to the lines
    of the first followed by the lines of the second, and a final line feed
    adds nothing. *)
Theorem decoding_is_line_wise a b :
  decodeOutput EmptyString = []
  /\ decodeOutput (a +:+ String JS.LF b) = decodeOutput a ++ decodeOutput b
  /\ decodeOutput (a +:+ String JS.LF EmptyString) = decodeOutput a.
Proof.
  assert (Hcompose : forall x y,
            decodeOutput (x +:+ String JS.LF y) = decodeOutput x ++ decodeOutput y).
  { intros x y. unfold decodeOutput.
    rewrite split_append, List.filter_app, List.map_app. reflexivity. }
  split; [reflexivity|]. split; [apply Hcompose|].
  rewrite Hcompose. change (decodeOutput EmptyString) with (@nil JSValue).
  apply app_nil_r.
Qed.

End DecodingComposes.

(** ** Omitted arguments *)

Section Defaults.
Context `{Runtime}.

(** X3. An optional argument left out behaves as its default: a test run
    without configuration and destination is the test run with "Debug" and
    the default destination, an empty test identifier and an empty skip list
    are the same as none, and a build without destination is the build with
    the default destination. *)
Theorem omitted_arguments_are_defaults this now projectPath scheme configuration
    testIdentifier skipTests destination buildConfiguration includeWarnings :
  invoke this now (Test projectPath scheme None testIdentifier skipTests None)
  = invoke this now
      (Test projectPath scheme (Some "Debug") testIdentifier skipTests
         (Some defaultDestination))
  /\ invoke this now
       (Test projectPath scheme configuration (Some EmptyString) skipTests destination)
     = invoke this now (Test projectPath scheme configuration None skipTests destination)
  /\ invoke this now
       (Test projectPath scheme configuration testIdentifier (Some []) destination)
     = invoke this now
         (Test projectPath scheme configuration testIdentifier None destination)
  /\ invoke this now (Build projectPath scheme buildConfiguration None includeWarnings)
     = invoke this now
         (Build projectPath scheme buildConfiguration (Some defaultDestination)
            includeWarnings).
Proof.
  repeat split; reflexivity.
Qed.

End Defaults.

(** ** Start-up *)

(** X4. Start-up does not swallow a failure to create the log directory:
    when the system refuses the directory, [initializeAsync] throws the error
    of [mkdir] and leaves the state as it was; otherwise it returns, the
    directory exists, and no file is touched. *)
Theorem initialize_creates_or_throws this st :
  (buildLogsDir this ∈ unwritable (fs st) ->
   initializeAsync this st =
     (Throw (errno "EACCES: permission denied, mkdir" (buildLogsDir this)), st))
  /\ (buildLogsDir this ∉ unwritable (fs st) ->
      exists st',
        initializeAsync this st = (Return tt, st')
        /\ existsPath (buildLogsDir this) (fs st') = true
        /\ files (fs st') = files (fs st)
        /\ executed st' = executed st
        /\ written st' = written st).
Proof.
  unfold initializeAsync, mkdir. unfold_monad. split; intros Hdir.
  - rewrite bool_decide_eq_true_2 by assumption. reflexivity.
  - rewrite bool_decide_eq_false_2 by assumption. eexists. split; [reflexivity|].
    simpl. repeat split. unfold existsPath. simpl.
    rewrite (bool_decide_eq_true_2 (buildLogsDir this ∈ _)); [apply orb_true_r|].
    set_solver.
Qed.

(** ** The resource handlers *)

(** X5. Reading a resource never changes the state. It is refused as an
    unknown resource when no invocation has set the pointer or when another
    URI is asked for, and fails with an error of code InternalError when the
    file the pointer names is not there. *)
Theorem read_refusals this requested st :
  snd (readResource this requested st) = st
  /\ (latestBuildLog this = None \/ requested <> latestLogUri ->
      fst (readResource this requested st)
      = Throw (McpError InvalidRequest ("Unknown resource: " +:+ requested)))
  /\ (forall log,
        latestBuildLog this = Some log ->
        JS.truthy log = true ->
        files (fs st) !! log = None ->
        exists e,
          fst (readResource this latestLogUri st) = Throw (ThrownError e)
          /\ code e = Some InternalError).
Proof.
  unfold readResource. split; [|split].
  - destruct (latestBuildLog this) as [log|]; [|reflexivity].
    destruct (negb (String.eqb requested latestLogUri) || negb (JS.truthy log));
      [reflexivity|].
    unfold readFile. unfold_monad. destruct (files (fs st) !! log); reflexivity.
  - intros [Hnone|Huri].
    + rewrite Hnone. reflexivity.
    + destruct (latestBuildLog this) as [log|]; [|reflexivity].
      apply String.eqb_neq in Huri. rewrite Huri. reflexivity.
  - intros log Hlog Htruthy Hfile. rewrite Hlog, Htruthy. simpl.
    unfold readFile. unfold_monad. rewrite Hfile. eexists. split; reflexivity.
Qed.

(** X6. The list and the read handler agree: the latest-log resource is
    listed exactly when a read of its URI is not refused as an unknown
    resource; the list never holds more than that one resource. *)
Theorem listed_iff_known this st :
  (listResources this = [] <->
     fst (readResource this latestLogUri st)
     = Throw (McpError InvalidRequest ("Unknown resource: " +:+ latestLogUri)))
  /\ (listResources this = []
      \/ listResources this =
           [mkResource latestLogUri "Latest Xcode Build Log" "text/plain"
              "Most recent Xcode build output"]).
Proof.
  unfold listResources, readResource.
  destruct (latestBuildLog this) as [log|]; [|split; [split|left]; reflexivity].
  destruct (JS.truthy log); simpl.
  - split; [|right; reflexivity]. split; [discriminate|].
    unfold readFile. unfold_monad. destruct (files (fs st) !! log); discriminate.
  - split; [split|left]; reflexivity.
Qed.

(** ** The arguments of a tool call *)

Lemma isStringProp_iff k a :
  isStringProp k a = true <-> exists s, prop k a = Some (JString s).
Proof.
  unfold isStringProp. destruct (prop k a) as [[| | |s| |]|]; simpl; split;
    try discriminate; try (intros [s' Hs']; discriminate); eauto.
Qed.

Lemma isOptionalStringProp_iff k a :
  isOptionalStringProp k a = true <-> exists o, prop k a = JString <$> o.
Proof.
  unfold isOptionalStringProp, isStringProp.
  destruct (prop k a) as [[| | |s| |]|]; simpl; split; try discriminate;
    try (intros [[s'|] Hs']; discriminate).
  - intros _. exists (Some s). reflexivity.
  - reflexivity.
  - intros _. exists None. reflexivity.
  - reflexivity.
Qed.

Lemma isOptionalBooleanProp_iff k a :
  isOptionalBooleanProp k a = true <-> exists o, prop k a = JBool <$> o.
Proof.
  unfold isOptionalBooleanProp.
  destruct (prop k a) as [[|b| | | |]|]; simpl; split; try discriminate;
    try (intros [[b'|] Hb']; discriminate).
  - intros _. exists (Some b). reflexivity.
  - reflexivity.
  - intros _. exists None. reflexivity.
  - reflexivity.
Qed.

Lemma prop_some_object k a v : prop k a = Some v -> asObject (Some a) = Some a.
Proof.
  destruct a; simpl; try discriminate. reflexivity.
Qed.

Lemma all_strings_iff items :
  forallb (fun t => match typeof t with TString => true | _ => false end) items = true
  <-> exists l, items = map JString l.
Proof.
  induction items as [|v items IH]; simpl.
  - split; [exists []; reflexivity | reflexivity].
  - rewrite andb_true_iff, IH. split.
    + intros [Hv [l ->]]. destruct v; try discriminate. exists (s :: l). reflexivity.
    + intros [[|x l] Hl]; [discriminate|]. injection Hl as -> ->.
      split; [reflexivity | exists l; reflexivity].
Qed.

Lemma strings_of_strings l : strings (map JString l) = l.
Proof.
  induction l as [|x l IH]; [reflexivity|]. simpl. rewrite IH. reflexivity.
Qed.

(** X7. The build tool accepts its arguments exactly when they are an
    object with a string projectPath, a string scheme, and configuration,
    destination (strings) and includeWarnings (a boolean) each absent or of
    its type. The call it then makes carries these values unchanged, with
    "Debug" for a missing configuration and false for a missing
    includeWarnings. *)
Theorem build_arguments_accepted a :
  (isBuildOptions (Some a) = true <->
     exists projectPath scheme configuration destination includeWarnings,
       prop "projectPath" a = Some (JString projectPath)
       /\ prop "scheme" a = Some (JString scheme)
       /\ prop "configuration" a = JString <$> configuration
       /\ prop "destination" a = JString <$> destination
       /\ prop "includeWarnings" a = JBool <$> includeWarnings)
  /\ (forall projectPath scheme configuration destination includeWarnings,
        prop "projectPath" a = Some (JString projectPath) ->
        prop "scheme" a = Some (JString scheme) ->
        prop "configuration" a = JString <$> configuration ->
        prop "destination" a = JString <$> destination ->
        prop "includeWarnings" a = JBool <$> includeWarnings ->
        toolInvocation "build_project" (Some a) =
          inr (Build projectPath scheme (default "Debug" configuration) destination
                 (default false includeWarnings))).
Proof.
  assert (Hshape :
    isBuildOptions (Some a) = true <->
    exists projectPath scheme configuration destination includeWarnings,
      prop "projectPath" a = Some (JString projectPath)
      /\ prop "scheme" a = Some (JString scheme)
      /\ prop "configuration" a = JString <$> configuration
      /\ prop "destination" a = JString <$> destination
      /\ prop "includeWarnings" a = JBool <$> includeWarnings).
  { unfold isBuildOptions, isBuildArguments. split.
    - destruct (asObject (Some a)) as [a'|] eqn:Ha; [|discriminate].
      apply asObject_some in Ha. injection Ha as <-.
      destruct (isStringProp "projectPath" a) eqn:Hp; [|discriminate].
      destruct (isStringProp "scheme" a) eqn:Hs; [|discriminate].
      destruct (isOptionalStringProp "configuration" a) eqn:Hc; [|discriminate].
      destruct (isOptionalStringProp "destination" a) eqn:Hd; [|discriminate].
      cbn [andb negb]. intros Hw.
      apply isStringProp_iff in Hp as [p Hp], Hs as [s Hs].
      apply isOptionalStringProp_iff in Hc as [c Hc], Hd as [d Hd].
      apply isOptionalBooleanProp_iff in Hw as [w Hw].
      exists p, s, c, d, w. auto.
    - intros (p & s & c & d & w & Hp & Hs & Hc & Hd & Hw).
      rewrite (prop_some_object _ _ _ Hp).
      rewrite (proj2 (isStringProp_iff _ _) (ex_intro _ p Hp)).
      rewrite (proj2 (isStringProp_iff _ _) (ex_intro _ s Hs)).
      rewrite (proj2 (isOptionalStringProp_iff _ _) (ex_intro _ c Hc)).
      rewrite (proj2 (isOptionalStringProp_iff _ _) (ex_intro _ d Hd)).
      cbn [andb negb]. apply isOptionalBooleanProp_iff. eauto. }
  split; [exact Hshape|].
  intros p s c d w Hp Hs Hc Hd Hw.
  unfold toolInvocation. cbn [String.eqb Ascii.eqb].
  rewrite (proj2 Hshape) by eauto 10.
  cbn [negb mbind option_bind]. unfold stringArg, booleanArg.
  rewrite Hp, Hs, Hc, Hd, Hw.
  destruct c, d, w; reflexivity.
Qed.

(** X8. The test tool accepts its arguments exactly when they are an object
    with a string projectPath, a string scheme, and testIdentifier,
    configuration, destination (strings) and skipTests (an array of strings)
    each absent or of its type; includeWarnings is not looked at. The call it
    then makes carries these values unchanged, the skip list entry by entry
    and in order. *)
Theorem test_arguments_accepted a :
  (isTestArguments (Some a) = true <->
     exists projectPath scheme configuration testIdentifier skipTests destination,
       prop "projectPath" a = Some (JString projectPath)
       /\ prop "scheme" a = Some (JString scheme)
       /\ prop "testIdentifier" a = JString <$> testIdentifier
       /\ prop "skipTests" a = (fun l => JArray (map JString l)) <$> skipTests
       /\ prop "configuration" a = JString <$> configuration
       /\ prop "destination" a = JString <$> destination)
  /\ (forall projectPath scheme configuration testIdentifier skipTests destination,
        prop "projectPath" a = Some (JString projectPath) ->
        prop "scheme" a = Some (JString scheme) ->
        prop "testIdentifier" a = JString <$> testIdentifier ->
        prop "skipTests" a = (fun l => JArray (map JString l)) <$> skipTests ->
        prop "configuration" a = JString <$> configuration ->
        prop "destination" a = JString <$> destination ->
        toolInvocation "run_tests" (Some a) =
          inr (Test projectPath scheme configuration testIdentifier skipTests
                 destination)).
Proof.
  assert (Hskip :
    match prop "skipTests" a with
    | None => true
    | Some (JArray items) =>
        forallb (fun t => match typeof t with TString => true | _ => false end) items
    | Some _ => false
    end = true <->
    exists k, prop "skipTests" a = (fun l => JArray (map JString l)) <$> k).
  { destruct (prop "skipTests" a) as [[| | | |items|]|]; split; try discriminate;
      try (intros [[l|] Hl]; discriminate).
    - intros Hitems. apply all_strings_iff in Hitems as [l ->]. exists (Some l).
      reflexivity.
    - intros [[l|] Hl]; [|discriminate]. injection Hl as ->.
      apply all_strings_iff. eauto.
    - intros _. exists None. reflexivity.
    - reflexivity. }
  assert (Hshape :
    isTestArguments (Some a) = true <->
    exists projectPath scheme configuration testIdentifier skipTests destination,
      prop "projectPath" a = Some (JString projectPath)
      /\ prop "scheme" a = Some (JString scheme)
      /\ prop "testIdentifier" a = JString <$> testIdentifier
      /\ prop "skipTests" a = (fun l => JArray (map JString l)) <$> skipTests
      /\ prop "configuration" a = JString <$> configuration
      /\ prop "destination" a = JString <$> destination).
  { unfold isTestArguments. split.
    - destruct (asObject (Some a)) as [a'|] eqn:Ha; [|discriminate].
      apply asObject_some in Ha. injection Ha as <-.
      rewrite !andb_true_iff. intros [[[[[Hp Hs] Ht] Hk] Hc] Hd].
      apply isStringProp_iff in Hp as [p Hp], Hs as [s Hs].
      apply isOptionalStringProp_iff in Ht as [t Ht], Hc as [c Hc], Hd as [d Hd].
      apply Hskip in Hk as [k Hk].
      exists p, s, c, t, k, d. auto 10.
    - intros (p & s & c & t & k & d & Hp & Hs & Ht & Hk & Hc & Hd).
      rewrite (prop_some_object _ _ _ Hp). rewrite !andb_true_iff.
      repeat split.
      + apply isStringProp_iff; eauto.
      + apply isStringProp_iff; eauto.
      + apply isOptionalStringProp_iff; eauto.
      + apply Hskip; eauto.
      + apply isOptionalStringProp_iff; eauto.
      + apply isOptionalStringProp_iff; eauto. }
  split; [exact Hshape|].
  intros p s c t k d Hp Hs Ht Hk Hc Hd.
  unfold toolInvocation. cbn [String.eqb Ascii.eqb].
  rewrite (proj2 Hshape) by eauto 12.
  cbn [negb mbind option_bind]. unfold stringArg, stringArrayArg.
  rewrite Hp, Hs, Ht, Hk, Hc, Hd.
  destruct c, t, d, k; simpl; rewrite ?strings_of_strings; reflexivity.
Qed.

(** ** What escapes an invocation, and what a rejected call does *)

Section Escapes.
Context `{Runtime}.

(** X9. An invocation throws in two cases only, both after a failed child
    process and before anything is written: the failure is not an [Error],
    and is thrown again as it is; or it is an [Error] and the raw log cannot
    be written, and the error of that write is thrown. An invocation whose
    child process completes never throws. *)
Theorem invocation_escapes this now call st t st' :
  invoke this now call st = (Throw t, st') ->
  st' = snd (child this now call st)
  /\ written st' = written st
  /\ ((exists v,
         fst (child this now call st) = Rejected (ThrownValue v) /\ t = ThrownValue v)
      \/ (exists e,
            fst (child this now call st) = Rejected (ThrownError e)
            /\ rawLog this now call ∈ unwritable (fs st')
            /\ t = errno "EACCES: permission denied, open" (rawLog this now call))).
Proof.
  rewrite invoke_child.
  destruct (child this now call st) as [[stdout stderr|error] st1] eqn:Hchild.
  - destruct (completed_returns this now call stdout stderr st1) as (r & st2 & ->).
    discriminate.
  - destruct (child_logs _ _ _ _ _ _ Hchild) as [_ Hw]. simpl.
    destruct error as [e|v].
    + destruct (decide (rawLog this now call ∈ unwritable (fs st1))) as [Hlog|Hlog].
      * rewrite onExecError_refused by assumption. intros [= <- <-].
        split; [reflexivity|]. split; [exact Hw|]. right. exists e. auto.
      * destruct (onExecError_written (rawLog this now call) e st1 Hlog) as (st2 & -> & _).
        discriminate.
    + intros [= <- <-]. split; [reflexivity|]. split; [exact Hw|]. left. exists v. auto.
Qed.

(** X10. A call that the tool handler rejects has no effect: an unknown
    tool name is answered with MethodNotFound, arguments that fail the guard
    of their tool with InvalidParams, and in each case no command is run, no
    file is written and the state is the one before the call. *)
Theorem rejected_call_has_no_effect this now toolName arguments st :
  (toolName <> "build_project" -> toolName <> "run_tests" ->
   callTool this now toolName arguments st =
     (Throw (McpError MethodNotFound ("Unknown tool: " +:+ toolName)), st))
  /\ (isBuildOptions arguments = false ->
      callTool this now "build_project" arguments st =
        (Throw (McpError InvalidParams "Invalid build arguments provided"), st))
  /\ (isTestArguments arguments = false ->
      callTool this now "run_tests" arguments st =
        (Throw (McpError InvalidParams "Invalid test arguments provided"), st)).
Proof.
  unfold callTool, toolInvocation. split; [|split].
  - intros Hb Ht. apply String.eqb_neq in Hb, Ht. rewrite Hb, Ht. reflexivity.
  - intros Hguard. cbn [String.eqb Ascii.eqb]. rewrite Hguard. reflexivity.
  - intros Hguard. cbn [String.eqb Ascii.eqb]. rewrite Hguard. reflexivity.
Qed.

(** X11. An error that carries a protocol code comes from the handler
    itself, never from an invocation: when a tool call throws such an error,
    the call was rejected before any command was run, and the state is the
    one before the call. *)
Theorem protocol_error_means_nothing_ran this now toolName arguments st e st' :
  callTool this now toolName arguments st = (Throw (ThrownError e), st') ->
  code e <> None ->
  st' = st /\ toolInvocation toolName arguments = inl (ThrownError e).
Proof.
  unfold callTool. intros Hcall Hcode.
  destruct (toolInvocation toolName arguments) as [t|call].
  - injection Hcall as -> <-. auto.
  - exfalso. unfold_monad.
    destruct (invoke this now call st) as [[r|t] st2] eqn:Hinvoke; [discriminate|].
    injection Hcall as -> <-. rewrite invoke_child in Hinvoke.
    destruct (child this now call st) as [[stdout stderr|error] st1].
    + destruct (completed_returns this now call stdout stderr st1) as (r & st3 & Heq).
      rewrite Heq in Hinvoke. discriminate.
    + destruct error as [e'|v]; [|discriminate].
      destruct (decide (rawLog this now call ∈ unwritable (fs st1))) as [Hlog|Hlog].
      * rewrite onExecError_refused in Hinvoke by assumption.
        injection Hinvoke as Heq _. apply Hcode. rewrite <- Heq. reflexivity.
      * destruct (onExecError_written (rawLog this now call) e' st1 Hlog)
          as (st3 & Heq & _).
        rewrite Heq in Hinvoke. discriminate.
Qed.

(** X12. Asking for warnings changes what a build reports, nothing else:
    the command, the child process and the raw log path are the same with
    and without includeWarnings; after a failed child process the two builds
    behave alike; after a completed one both return, with the same success
    flag and the same log path. *)
Theorem include_warnings_only_changes_the_report
    this now projectPath scheme configuration destination st :
  command this now (Build projectPath scheme configuration destination false)
  = command this now (Build projectPath scheme configuration destination true)
  /\ child this now (Build projectPath scheme configuration destination false) st
     = child this now (Build projectPath scheme configuration destination true) st
  /\ (forall error st1,
        child this now (Build projectPath scheme configuration destination true) st
        = (Rejected error, st1) ->
        invoke this now (Build projectPath scheme configuration destination false) st
        = invoke this now (Build projectPath scheme configuration destination true) st)
  /\ (forall stdout stderr st1,
        child this now (Build projectPath scheme configuration destination true) st
        = (Resolved stdout stderr, st1) ->
        exists quiet loud st' st'',
          invoke this now (Build projectPath scheme configuration destination false) st
          = (Return quiet, st')
          /\ invoke this now (Build projectPath scheme configuration destination true) st
             = (Return loud, st'')
          /\ success quiet = success loud
          /\ logPath quiet = logPath loud).
Proof.
  split; [reflexivity|]. split; [reflexivity|]. split.
  - intros error st1 Hchild. rewrite !invoke_child.
    change (child this now (Build projectPath scheme configuration destination false) st)
      with (child this now (Build projectPath scheme configuration destination true) st).
    rewrite Hchild. reflexivity.
  - intros stdout stderr st1 Hchild. rewrite !invoke_child.
    change (child this now (Build projectPath scheme configuration destination false) st)
      with (child this now (Build projectPath scheme configuration destination true) st).
    rewrite Hchild.
    destruct (completed_spec this now
                (Build projectPath scheme configuration destination false)
                stdout stderr st1) as (st' & more & files & -> & _).
    destruct (completed_spec this now
                (Build projectPath scheme configuration destination true)
                stdout stderr st1) as (st'' & more' & files' & -> & _).
    eexists _, _, st', st''. repeat split.
Qed.

(** X13. The result of a test run whose child process completes is fixed
    by the captured output alone: it is returned whatever the file system
    refuses and whether or not a result bundle exists, its output is stdout
    followed by stderr, and it reports success exactly when stdout holds
    neither failure banner. *)
Theorem test_result_is_the_captured_output
    this now projectPath scheme configuration testIdentifier skipTests destination
    st stdout stderr st1 :
  child this now
    (Test projectPath scheme configuration testIdentifier skipTests destination) st
  = (Resolved stdout stderr, st1) ->
  exists st',
    invoke this now
      (Test projectPath scheme configuration testIdentifier skipTests destination) st
    = (Return
         (mkResult
            (negb (JS.includes stdout "** TEST FAILED **")
             && negb (JS.includes stdout "** BUILD FAILED **"))
            (stdout +:+ stderr)
            (rawLog this now
               (Test projectPath scheme configuration testIdentifier skipTests
                  destination))),
       st').
Proof.
  intros Hchild. rewrite invoke_child, Hchild.
  destruct (completed_spec this now
              (Test projectPath scheme configuration testIdentifier skipTests destination)
              stdout stderr st1) as (st' & more & files & Heq & _).
  exists st'. rewrite Heq. cbn [isBuild failureBanners existsb andb negb].
  rewrite orb_false_r, negb_orb, andb_true_r. reflexivity.
Qed.

End Escapes.

(** X9 on a test run whose pipeline fails while the raw log is refused. *)
Lemma invocation_escapes_witness :
  snd (@invoke Examples.brokenPipe Examples.server Examples.now Examples.testCall
         (Examples.disk [Examples.testLog]))
  = snd (@child Examples.brokenPipe Examples.server Examples.now Examples.testCall
           (Examples.disk [Examples.testLog]))
  /\ written (snd (@invoke Examples.brokenPipe Examples.server Examples.now
                     Examples.testCall (Examples.disk [Examples.testLog])))
     = written (Examples.disk [Examples.testLog]).
Proof.
  destruct (@invocation_escapes Examples.brokenPipe Examples.server Examples.now
              Examples.testCall (Examples.disk [Examples.testLog])
              (errno "EACCES: permission denied, open" Examples.testLog)
              (snd (@invoke Examples.brokenPipe Examples.server Examples.now
                      Examples.testCall (Examples.disk [Examples.testLog]))))
    as (Hstate & Hwritten & _).
  - vm_compute. reflexivity.
  - split; assumption.
Defined.

(** X11 on a call of a tool that does not exist. *)
Lemma protocol_error_means_nothing_ran_witness :
  toolInvocation "archive_project" None
  = inl (McpError MethodNotFound "Unknown tool: archive_project").
Proof.
  destruct (@protocol_error_means_nothing_ran Examples.cleanBuild Examples.server
              Examples.now "archive_project" None (Examples.disk [])
              (mkError "Unknown tool: archive_project" None (Some MethodNotFound))
              (Examples.disk []))
    as [_ Hrejected].
  - vm_compute. reflexivity.
  - simpl. discriminate.
  - exact Hrejected.
Defined.

(** X13 on a failed test run. *)
Lemma test_result_is_the_captured_output_witness :
  exists st',
    @invoke Examples.failedTests Examples.server Examples.now
      (Test "/work/App.xcodeproj" "App" None None (Some ["A/b"; "C/d"]) None)
      (Examples.disk [])
    = (Return
         (mkResult
            (negb (JS.includes Examples.failedTestOutput "** TEST FAILED **")
             && negb (JS.includes Examples.failedTestOutput "** BUILD FAILED **"))
            (Examples.failedTestOutput +:+ EmptyString)
            (rawLog Examples.server Examples.now
               (Test "/work/App.xcodeproj" "App" None None (Some ["A/b"; "C/d"]) None))),
       st').
Proof.
  apply (@test_result_is_the_captured_output Examples.failedTests Examples.server
           Examples.now "/work/App.xcodeproj" "App" None None (Some ["A/b"; "C/d"]) None
           (Examples.disk []) Examples.failedTestOutput EmptyString
           (snd (@child Examples.failedTests Examples.server Examples.now
                   Examples.testCall (Examples.disk [])))).
  vm_compute. reflexivity.
Defined.

(** ** The lines the build filter keeps *)

Module ErrorLine.
Import Regex RegexFacts.

Lemma lang_lit s w : lang (lit s) w <-> w = s.
Proof.
  revert w. induction s as [|c s IH]; intros w; simpl.
  - split; [inversion 1; reflexivity | intros ->; constructor].
  - split.
    + intros Hcat. apply lang_cat_inv in Hcat as (s1 & s2 & -> & H1 & H2).
      inversion H1; subst. apply IH in H2 as ->. reflexivity.
    + intros ->. change (String c s) with (String c EmptyString +:+ s).
      constructor; [constructor | apply IH; reflexivity].
Qed.

Lemma everyChar_append test a b :
  everyChar test (a +:+ b) = everyChar test a && everyChar test b.
Proof.
  unfold everyChar. induction a as [|c a IH]; [reflexivity|].
  change (String c a +:+ b) with (String c (a +:+ b)). simpl.
  rewrite IH, andb_assoc. reflexivity.
Qed.

(** The words of a starred character class are the strings of characters
    of the class. *)
Lemma lang_star_class r test w :
  (forall s, lang r s <-> exists c, s = String c EmptyString /\ test c = true) ->
  lang (Star r) w <-> everyChar test w = true.
Proof.
  intros Hclass. split.
  - intros Hstar. remember (Star r) as e eqn:He.
    induction Hstar as [ | | | | | | | |r' s1 s2 H1 _ H2 IH2]; try discriminate.
    + reflexivity.
    + injection He as ->. apply Hclass in H1 as (c & -> & Hc).
      rewrite everyChar_append, (IH2 eq_refl), andb_true_r.
      unfold everyChar. simpl. rewrite Hc. reflexivity.
  - induction w as [|c w IH]; [constructor|].
    unfold everyChar. simpl. rewrite andb_true_iff. intros [Hc Hw].
    change (String c w) with (String c EmptyString +:+ w).
    constructor; [apply Hclass; eauto | apply IH; exact Hw].
Qed.

Lemma lang_plus_class r test w :
  (forall s, lang r s <-> exists c, s = String c EmptyString /\ test c = true) ->
  lang (Plus r) w <-> w <> EmptyString /\ everyChar test w = true.
Proof.
  intros Hclass. unfold Plus. split.
  - intros Hcat. apply lang_cat_inv in Hcat as (s1 & s2 & -> & H1 & H2).
    apply Hclass in H1 as (c & -> & Hc).
    apply (lang_star_class r test s2 Hclass) in H2.
    split; [discriminate|].
    rewrite everyChar_append, H2, andb_true_r. unfold everyChar. simpl.
    rewrite Hc. reflexivity.
  - intros [Hne Hall]. destruct w as [|c w]; [contradiction|].
    unfold everyChar in Hall. simpl in Hall. apply andb_true_iff in Hall as [Hc Hw].
    change (String c w) with (String c EmptyString +:+ w).
    constructor; [apply Hclass; eauto | apply (lang_star_class r test w Hclass); exact Hw].
Qed.

Lemma lang_dot s :
  lang Dot s <-> exists c, s = String c EmptyString /\ negb (isLineTerminator c) = true.
Proof.
  split.
  - inversion 1; subst. eexists. split; [reflexivity|].
    apply negb_true_iff. assumption.
  - intros (c & -> & Hc). constructor. apply negb_true_iff. exact Hc.
Qed.

Lemma lang_digit s :
  lang Digit s <-> exists c, s = String c EmptyString /\ isDigit c = true.
Proof.
  split.
  - inversion 1; subst. eauto.
  - intros (c & -> & Hc). constructor. exact Hc.
Qed.

Lemma lang_chr c s : lang (Chr c) s <-> s = String c EmptyString.
Proof.
  split; [inversion 1; reflexivity | intros ->; constructor].
Qed.

(** The words of the error pattern: a slash, a path on one line, a colon,
    a line number, a colon, a column number and the error mark. *)
Lemma lang_errorLine w :
  lang errorLineRe w <->
  exists file line column,
    w = "/" +:+ file +:+ ":" +:+ line +:+ ":" +:+ column +:+ ": error:"
    /\ file <> EmptyString
    /\ everyChar (fun c => negb (isLineTerminator c)) file = true
    /\ line <> EmptyString /\ everyChar isDigit line = true
    /\ column <> EmptyString /\ everyChar isDigit column = true.
Proof.
  unfold errorLineRe. split.
  - intros H0.
    apply lang_cat_inv in H0 as (s0 & w1 & -> & Hs0 & H1). apply lang_chr in Hs0 as ->.
    apply lang_cat_inv in H1 as (file & w2 & -> & Hfile & H2).
    apply (lang_plus_class _ _ _ lang_dot) in Hfile as [Hfile1 Hfile2].
    apply lang_cat_inv in H2 as (s2 & w3 & -> & Hs2 & H3). apply lang_chr in Hs2 as ->.
    apply lang_cat_inv in H3 as (line & w4 & -> & Hline & H4).
    apply (lang_plus_class _ _ _ lang_digit) in Hline as [Hline1 Hline2].
    apply lang_cat_inv in H4 as (s4 & w5 & -> & Hs4 & H5). apply lang_chr in Hs4 as ->.
    apply lang_cat_inv in H5 as (column & w6 & -> & Hcolumn & H6).
    apply (lang_plus_class _ _ _ lang_digit) in Hcolumn as [Hcolumn1 Hcolumn2].
    apply lang_lit in H6 as ->.
    exists file, line, column. auto 10.
  - intros (file & line & column & -> & Hf1 & Hf2 & Hl1 & Hl2 & Hc1 & Hc2).
    change ("/" +:+ file +:+ ":" +:+ line +:+ ":" +:+ column +:+ ": error:")
      with (String "/" EmptyString +:+
            (file +:+ (String ":" EmptyString +:+
                       (line +:+ (String ":" EmptyString +:+
                                  (column +:+ ": error:")))))).
    constructor; [constructor|].
    constructor; [apply (lang_plus_class _ _ _ lang_dot); auto|].
    constructor; [constructor|].
    constructor; [apply (lang_plus_class _ _ _ lang_digit); auto|].
    constructor; [constructor|].
    constructor; [apply (lang_plus_class _ _ _ lang_digit); auto|].
    apply lang_lit. reflexivity.
Qed.

End ErrorLine.

(** X14. The build filter keeps a plain text line exactly when the line
    starts with the path of the build tool, or holds a build banner, or
    starts with an error location (a slash, a file path on one line, a
    colon, a line number, a colon, a column number, then ": error:"), or
    holds the note of a candidate. *)
Theorem significant_text_lines text :
  significant (JString text) = true <->
  JS.startsWith text "/usr/bin/xcodebuild" = true
  \/ JS.includes text "** BUILD" = true
  \/ (exists file line column rest,
        text = "/" +:+ file +:+ ":" +:+ line +:+ ":" +:+ column +:+ ": error:" +:+ rest
        /\ file <> EmptyString
        /\ everyChar (fun c => negb (Regex.isLineTerminator c)) file = true
        /\ line <> EmptyString /\ everyChar Regex.isDigit line = true
        /\ column <> EmptyString /\ everyChar Regex.isDigit column = true)
  \/ JS.includes text "note: found this candidate" = true.
Proof.
  assert (Hpattern :
    Regex.matchesPrefix errorLineRe text = true <->
    exists file line column rest,
      text = "/" +:+ file +:+ ":" +:+ line +:+ ":" +:+ column +:+ ": error:" +:+ rest
      /\ file <> EmptyString
      /\ everyChar (fun c => negb (Regex.isLineTerminator c)) file = true
      /\ line <> EmptyString /\ everyChar Regex.isDigit line = true
      /\ column <> EmptyString /\ everyChar Regex.isDigit column = true).
  { rewrite RegexFacts.matchesPrefix_lang. split.
    - intros (word & rest & -> & Hword).
      apply ErrorLine.lang_errorLine in Hword as (file & line & column & -> & Hrest).
      exists file, line, column, rest. split; [|exact Hrest].
      rewrite !append_assoc. reflexivity.
    - intros (file & line & column & rest & -> & Hrest).
      exists ("/" +:+ file +:+ ":" +:+ line +:+ ":" +:+ column +:+ ": error:"), rest.
      split; [rewrite !append_assoc; reflexivity|].
      apply ErrorLine.lang_errorLine. exists file, line, column. auto. }
  rewrite <- Hpattern. cbn [significant].
  destruct (JS.startsWith text "/usr/bin/xcodebuild");
    destruct (JS.includes text "** BUILD");
    destruct (Regex.matchesPrefix errorLineRe text);
    destruct (JS.includes text "note: found this candidate");
    cbn [orb]; intuition discriminate.
Qed.

Lemma filter_sublist {A} (f : A -> bool) (l : list A) : sublist (List.filter f l) l.
Proof.
  induction l as [|x l IH]; simpl; [constructor|].
  destruct (f x); [apply sublist_skip | apply sublist_cons]; exact IH.
Qed.

Lemma filter_filter {A} (f : A -> bool) (l : list A) :
  List.filter f (List.filter f l) = List.filter f l.
Proof.
  induction l as [|x l IH]; [reflexivity|]. simpl.
  destruct (f x) eqn:Hx; [|exact IH]. simpl. rewrite Hx, IH. reflexivity.
Qed.

Section FilterStable.
Context `{Runtime}.

(** X15. The build filter only removes lines: what it keeps is a
    subsequence of what it is given, in the same order. It works line by
    line, so the filtered lines of two logs put end to end are the filtered
    lines of each, and it is stable: filtering what a build has logged, with
    or without warnings, gives the errors-only log of the same lines. *)
Theorem build_filter_is_stable (lines more : list JSValue) includeWarnings :
  sublist (filterBuildOutput lines) lines
  /\ filterBuildOutput (lines ++ more) = filterBuildOutput lines ++ filterBuildOutput more
  /\ filterBuildOutput (filteredOutput includeWarnings lines) = filterBuildOutput lines.
Proof.
  unfold filteredOutput, filterBuildOutput. split; [apply filter_sublist|].
  split; [apply List.filter_app|].
  destruct includeWarnings; [reflexivity | apply filter_filter].
Qed.

Lemma join_holds sep x l :
  In x l -> exists before after, JS.join sep l = before +:+ x +:+ after.
Proof.
  induction l as [|y l IH]; [contradiction|]. intros [->|Hin].
  - destruct l as [|z l].
    + exists EmptyString, EmptyString. simpl. rewrite append_empty. reflexivity.
    + exists EmptyString, (sep +:+ JS.join sep (z :: l)). reflexivity.
  - destruct (IH Hin) as (before & after & Heq). destruct l as [|z l]; [contradiction|].
    exists (y +:+ sep +:+ before), after.
    change (JS.join sep (y :: z :: l)) with (y +:+ sep +:+ JS.join sep (z :: l)).
    rewrite Heq, !append_assoc. reflexivity.
Qed.

(** X16. A build that persists its structured log returns every plain
    text line of the captured output that the filter keeps, and every plain
    text line when warnings are requested, as it stands in its output; so
    the banner line of a failed or succeeded build is always part of the
    output. *)
Theorem significant_text_reaches_the_output
    this now projectPath scheme configuration destination includeWarnings
    st stdout stderr st1 text :
  child this now (Build projectPath scheme configuration destination includeWarnings) st
  = (Resolved stdout stderr, st1) ->
  structuredLog this now
    (Build projectPath scheme configuration destination includeWarnings)
  ∉ unwritable (fs st1) ->
  In (JString text) (decodeOutput stdout) ->
  includeWarnings = true \/ significant (JString text) = true ->
  exists r st',
    invoke this now
      (Build projectPath scheme configuration destination includeWarnings) st
    = (Return r, st')
    /\ JS.includes (output r) text = true.
Proof.
  intros Hchild Hlog Hin Hkept. rewrite invoke_child, Hchild.
  destruct (completed_spec this now
              (Build projectPath scheme configuration destination includeWarnings)
              stdout stderr st1) as (st' & more & files & Heq & _).
  rewrite (bool_decide_eq_false_2 _ Hlog) in Heq.
  eexists _, st'. split; [exact Heq|]. cbn [output isBuild andb negb loggedLines].
  apply includes_spec. apply join_holds.
  change text with (renderLine (JString text)). apply List.in_map.
  unfold filteredOutput, filterBuildOutput.
  destruct Hkept as [->|Hkept]; [exact Hin|].
  destruct includeWarnings; [exact Hin|]. apply List.filter_In. auto.
Qed.

End FilterStable.

(** X16 on a failed build: the banner is part of the output. *)
Lemma significant_text_reaches_the_output_witness :
  exists r st',
    @invoke Examples.failedBuild Examples.server Examples.now
      (Build "/work/App.xcodeproj" "App" "Debug" None false) (Examples.disk [])
    = (Return r, st')
    /\ JS.includes (output r) "** BUILD FAILED **" = true.
Proof.
  apply (@significant_text_reaches_the_output Examples.failedBuild Examples.server
           Examples.now "/work/App.xcodeproj" "App" "Debug" None false
           (Examples.disk []) Examples.failedBuildOutput EmptyString
           (snd (@child Examples.failedBuild Examples.server Examples.now
                   (Examples.buildCall false) (Examples.disk [])))
           "** BUILD FAILED **").
  - vm_compute. reflexivity.
  - eapply bool_decide_eq_false_1. vm_compute. reflexivity.
  - vm_compute. right. right. right. left. reflexivity.
  - right. reflexivity.
Defined.

(** ** The paths of the artifacts *)

Lemma includes_char_append c a b :
  JS.includes (a +:+ b) (String c EmptyString)
  = JS.includes a (String c EmptyString) || JS.includes b (String c EmptyString).
Proof.
  induction a as [|x a IH].
  - change (EmptyString +:+ b) with b. destruct b; reflexivity.
  - change (String x a +:+ b) with (String x (a +:+ b)).
    rewrite !includes_char_cons, IH, orb_assoc. reflexivity.
Qed.

Lemma split_no_separator sep s :
  JS.includes s (String sep EmptyString) = false -> JS.split sep s = [s].
Proof.
  induction s as [|c s IH]; [reflexivity|].
  rewrite includes_char_cons. intros Hs. apply orb_false_elim in Hs as [Hc Hs].
  cbn [JS.split]. rewrite Ascii.eqb_sym, Hc, (IH Hs). reflexivity.
Qed.

Lemma timestamp_keeps_slashes now :
  JS.includes (timestampOf now) "/" = JS.includes now "/".
Proof.
  unfold timestampOf. induction now as [|c now IH]; [reflexivity|].
  cbn [JS.replaceColonPeriod]. rewrite !includes_char_cons, IH. f_equal.
  destruct (Ascii.eqb c ":") eqn:Hc; [apply Ascii.eqb_eq in Hc as ->; reflexivity|].
  destruct (Ascii.eqb c ".") eqn:Hd; [apply Ascii.eqb_eq in Hd as ->; reflexivity|].
  reflexivity.
Qed.

Lemma normalizeSegments_append allow acc l1 l2 :
  path.normalizeSegments allow acc (l1 ++ l2)
  = path.normalizeSegments allow (rev (path.normalizeSegments allow acc l1)) l2.
Proof.
  revert acc. induction l1 as [|s l1 IH]; intros acc.
  - simpl. rewrite rev_involutive. reflexivity.
  - simpl.
    destruct (String.eqb s EmptyString || String.eqb s "."); [apply IH|].
    destruct (String.eqb s ".."); [|apply IH].
    destruct acc as [|top acc]; [apply IH|].
    destruct (String.eqb top ".."); apply IH.
Qed.

Lemma normalizeSegments_file allow acc name :
  isFileName name ->
  path.normalizeSegments allow acc [name] = rev acc ++ [name].
Proof.
  intros (_ & Hempty & Hdot & Hdots). simpl.
  apply String.eqb_neq in Hempty, Hdot, Hdots. rewrite Hempty, Hdot, Hdots.
  reflexivity.
Qed.

Lemma join_last l name : JS.join "/" (l ++ [name]) = joinedBefore l +:+ name.
Proof.
  induction l as [|x l IH]; [reflexivity|].
  destruct l as [|y l].
  - simpl. rewrite append_assoc. reflexivity.
  - change (JS.join "/" ((x :: y :: l) ++ [name]))
      with (x +:+ "/" +:+ JS.join "/" ((y :: l) ++ [name])).
    rewrite IH. unfold joinedBefore.
    change (JS.join "/" (x :: y :: l)) with (x +:+ "/" +:+ JS.join "/" (y :: l)).
    rewrite !append_assoc. reflexivity.
Qed.

Lemma endsWithSlash_append a name :
  name <> EmptyString ->
  path.endsWithSlash (a +:+ name) = path.endsWithSlash name.
Proof.
  intros Hname. induction a as [|c a IH]; [reflexivity|].
  change (String c a +:+ name) with (String c (a +:+ name)).
  cbn [path.endsWithSlash]. destruct (a +:+ name) eqn:Happ; [|exact IH].
  destruct a; [contradiction | discriminate].
Qed.

Lemma endsWithSlash_file name :
  JS.includes name "/" = false -> path.endsWithSlash name = false.
Proof.
  induction name as [|c name IH]; [reflexivity|].
  rewrite includes_char_cons. intros Hs. apply orb_false_elim in Hs as [Hc Hs].
  cbn [path.endsWithSlash]. destruct name; [|apply IH; exact Hs].
  unfold path.SLASH. rewrite Ascii.eqb_sym. exact Hc.
Qed.

Lemma append_not_empty a name : name <> EmptyString -> a +:+ name <> EmptyString.
Proof.
  intros Hname Heq. destruct a; [contradiction | discriminate].
Qed.

(** [path.join] of a directory and a file name is a text that depends on
    the directory alone, followed by the file name. *)
Lemma path_join_file dir :
  exists before, forall name, isFileName name -> path.join [dir; name] = before +:+ name.
Proof.
  destruct dir as [|c dir].
  - exists EmptyString. intros name Hname.
    pose proof Hname as (Hslash & Hempty & _).
    unfold path.join. destruct name as [|x name]; [contradiction|].
    cbn [List.filter JS.truthy JS.join]. unfold path.normalize, path.SLASH.
    rewrite (endsWithSlash_file _ Hslash), (split_no_separator _ _ Hslash).
    rewrite (normalizeSegments_file _ _ _ Hname).
    rewrite includes_char_cons in Hslash. apply orb_false_elim in Hslash as [Hx _].
    rewrite Ascii.eqb_sym, Hx. reflexivity.
  - exists ((if Ascii.eqb c "/" then "/" else EmptyString)
            +:+ joinedBefore
                  (path.normalizeSegments (negb (Ascii.eqb c "/")) []
                     (JS.split "/" (String c dir)))).
    intros name Hname. pose proof Hname as (Hslash & Hempty & _).
    unfold path.join. destruct name as [|x name]; [contradiction|].
    cbn [List.filter JS.truthy].
    change (JS.join "/" [String c dir; String x name])
      with (String c (dir +:+ String "/" (String x name))).
    unfold path.normalize, path.SLASH.
    assert (Hjoin : String c (dir +:+ String "/" (String x name))
                    = String c dir +:+ String "/" (String x name)) by reflexivity.
    rewrite Hjoin. clear Hjoin.
    rewrite split_append, (split_no_separator _ _ Hslash).
    rewrite normalizeSegments_append, (normalizeSegments_file _ _ _ Hname).
    rewrite rev_involutive, join_last.
    assert (Hjoin : String c dir +:+ String "/" (String x name)
                    = (String c dir +:+ "/") +:+ String x name)
      by (rewrite append_assoc; reflexivity).
    rewrite Hjoin. clear Hjoin.
    rewrite endsWithSlash_append by discriminate.
    rewrite (endsWithSlash_file _ Hslash).
    destruct (joinedBefore _ +:+ String x name) eqn:Hjoined.
    + exfalso. revert Hjoined. apply append_not_empty. discriminate.
    + rewrite <- Hjoined. destruct (Ascii.eqb c "/").
      * rewrite append_assoc. reflexivity.
      * reflexivity.
Qed.

Lemma append_cancel_left a b c : a +:+ b = a +:+ c -> b = c.
Proof.
  induction a as [|x a IH]; [auto|]. intros Heq. apply IH.
  change (String x (a +:+ b) = String x (a +:+ c)) in Heq. congruence.
Qed.

Lemma append_cancel_right a b s : a +:+ s = b +:+ s -> a = b.
Proof.
  revert b. induction a as [|x a IH]; intros [|y b] Heq.
  - reflexivity.
  - apply (f_equal String.length) in Heq. rewrite !length_append in Heq.
    simpl in Heq. lia.
  - apply (f_equal String.length) in Heq. rewrite !length_append in Heq.
    simpl in Heq. lia.
  - change (String x (a +:+ s) = String y (b +:+ s)) in Heq.
    injection Heq as -> Heq. f_equal. apply IH. exact Heq.
Qed.

Lemma prefixed_is_file_name c head token suffix :
  c <> "."%char -> c <> "/"%char ->
  JS.includes head "/" = false -> JS.includes token "/" = false ->
  JS.includes suffix "/" = false ->
  isFileName (String c head +:+ token +:+ suffix).
Proof.
  intros Hdot Hslash Hhead Htoken Hsuffix. unfold isFileName.
  assert (Hshape : String c head +:+ token +:+ suffix
                   = String c (head +:+ token +:+ suffix)) by reflexivity.
  rewrite Hshape.
  split; [|repeat split; intros [= Heq]; congruence].
  rewrite includes_char_cons, !includes_char_append, Hhead, Htoken, Hsuffix.
  rewrite orb_false_r. apply Ascii.eqb_neq. congruence.
Qed.

Lemma artifact_names_are_file_names call token name :
  JS.includes token "/" = false ->
  In name (artifactNames call token) -> isFileName name.
Proof.
  intros Htoken Hin.
  destruct call; cbn [artifactNames In] in Hin;
    repeat (destruct Hin as [<-|Hin]; [|]); try contradiction;
    apply prefixed_is_file_name;
    first [discriminate | reflexivity | exact Htoken].
Qed.

(** The file names of the artifacts of one invocation differ. *)
Lemma artifact_names_differ call token : NoDup (artifactNames call token).
Proof.
  assert (Hlength : forall prefix suffix,
            String.length (prefix +:+ token +:+ suffix)
            = String.length prefix + String.length token + String.length suffix).
  { intros. rewrite !length_append. lia. }
  assert (Hlast : forall prefix suffix,
            suffix <> EmptyString ->
            JS.last (prefix +:+ token +:+ suffix) = JS.last suffix).
  { intros. rewrite !last_append; [reflexivity | assumption |].
    apply append_not_empty. assumption. }
  destruct call; cbn [artifactNames];
    repeat (apply NoDup_cons_2); try apply NoDup_nil_2;
    rewrite ?elem_of_cons, ?elem_of_nil; intros Hin;
    repeat (destruct Hin as [Heq|Hin]); try contradiction.
  all: try (apply (f_equal String.length) in Heq; rewrite !Hlength in Heq;
            simpl in Heq; lia).
  all: try discriminate Heq.
  all: try (apply (f_equal JS.last) in Heq; rewrite !Hlast in Heq by discriminate;
            discriminate Heq).
Qed.

(** The artifacts of an invocation stand side by side: each is the same
    text, given by the log directory, followed by its file name. *)
Lemma artifacts_shape this now call :
  JS.includes now "/" = false ->
  exists before,
    artifacts this now call
    = map (String.append before) (artifactNames call (timestampOf now)).
Proof.
  intros Hnow.
  assert (Htoken : JS.includes (timestampOf now) "/" = false).
  { rewrite timestamp_keeps_slashes. exact Hnow. }
  destruct (path_join_file (buildLogsDir this)) as [before Hbefore].
  exists before.
  assert (Hjoin : forall name,
            In name (artifactNames call (timestampOf now)) ->
            path.join [buildLogsDir this; name] = before +:+ name).
  { intros name Hin. apply Hbefore.
    apply (artifact_names_are_file_names call (timestampOf now)); assumption. }
  assert (Hlog : forall prefix token,
            (prefix +:+ token +:+ ".log") +:+ ".json" = prefix +:+ token +:+ ".log.json").
  { intros. rewrite !append_assoc. reflexivity. }
  destruct call; unfold artifacts, structuredLog, rawLog, logPathOf;
    cbn [kind map artifactNames] in *.
  - change (template ["build"; "-"; timestampOf now; ".log"])
      with ("build-" +:+ timestampOf now +:+ ".log").
    change (template ["report-"; timestampOf now; ".json"])
      with ("report-" +:+ timestampOf now +:+ ".json").
    change (template ["report-"; timestampOf now; ".txt"])
      with ("report-" +:+ timestampOf now +:+ ".txt").
    rewrite !Hjoin by (cbn [In]; auto). rewrite append_assoc, Hlog. reflexivity.
  - change (template ["test"; "-"; timestampOf now; ".log"])
      with ("test-" +:+ timestampOf now +:+ ".log").
    change (template ["test-summary-"; timestampOf now; ".json"])
      with ("test-summary-" +:+ timestampOf now +:+ ".json").
    change (template ["coverage-"; timestampOf now; ".txt"])
      with ("coverage-" +:+ timestampOf now +:+ ".txt").
    rewrite !Hjoin by (cbn [In]; auto). rewrite append_assoc, Hlog. reflexivity.
Qed.

Lemma artifacts_differ this now call :
  JS.includes now "/" = false -> NoDup (artifacts this now call).
Proof.
  intros Hnow. destruct (artifacts_shape this now call Hnow) as [before Hshape].
  rewrite Hshape. apply NoDup_fmap_2; [|apply artifact_names_differ].
  intros a b. apply append_cancel_left.
Qed.

(** X17. With a clock text free of slashes, the artifacts of an invocation
    are four different paths in one directory: each is the same leading
    text, fixed by the log directory, followed by a file name that holds
    the timestamp token of the invocation. No artifact overwrites
    another. *)
Theorem artifacts_are_distinct this now call :
  JS.includes now "/" = false ->
  NoDup (artifacts this now call)
  /\ exists before,
       artifacts this now call
       = map (String.append before) (artifactNames call (timestampOf now))
       /\ Forall (fun name => JS.includes name (timestampOf now) = true
                              /\ JS.includes name "/" = false)
            (artifactNames call (timestampOf now)).
Proof.
  intros Hnow. split; [apply artifacts_differ; exact Hnow|].
  destruct (artifacts_shape this now call Hnow) as [before Hshape].
  exists before. split; [exact Hshape|].
  apply Forall_forall. intros name Hin. apply list_elem_of_In in Hin. split.
  - destruct call; cbn [artifactNames In] in Hin;
      repeat (destruct Hin as [<-|Hin]; [|]); try contradiction;
      apply includes_spec; eexists _, _; reflexivity.
  - apply (artifact_names_are_file_names call (timestampOf now)); [|exact Hin].
    rewrite timestamp_keeps_slashes. exact Hnow.
Qed.

(** X18. With clock texts free of slashes, two invocations of one server
    have the same raw log path exactly when they are of the same kind, build
    or test, and have the same timestamp token: a build never shares its log
    with a test run, and two invocations of one kind share it only when
    their clocks give the same token. *)
Theorem raw_log_identifies_kind_and_token this now now' call call' :
  JS.includes now "/" = false ->
  JS.includes now' "/" = false ->
  rawLog this now call = rawLog this now' call'
  <-> kind call = kind call' /\ timestampOf now = timestampOf now'.
Proof.
  intros Hnow Hnow'. split.
  - destruct (path_join_file (buildLogsDir this)) as [before Hbefore].
    assert (Hraw : forall clock c,
              JS.includes clock "/" = false ->
              rawLog this clock c = before +:+ (kind c +:+ "-" +:+ timestampOf clock +:+ ".log")).
    { intros clock c Hclock. unfold rawLog, logPathOf.
      assert (Hname : template [kind c; "-"; timestampOf clock; ".log"]
                      = kind c +:+ "-" +:+ timestampOf clock +:+ ".log") by reflexivity.
      rewrite Hname. apply Hbefore.
      assert (Hin : In (kind c +:+ "-" +:+ timestampOf clock +:+ ".log")
                      (artifactNames c (timestampOf clock)))
        by (destruct c; left; reflexivity).
      apply (artifact_names_are_file_names c (timestampOf clock)); [|exact Hin].
      rewrite timestamp_keeps_slashes. exact Hclock. }
    rewrite (Hraw now call Hnow), (Hraw now' call' Hnow'). intros Heq.
    apply append_cancel_left in Heq.
    destruct call, call'; cbn [kind] in *; try discriminate Heq.
    + apply (append_cancel_left "build-") in Heq.
      apply append_cancel_right in Heq. auto.
    + apply (append_cancel_left "test-") in Heq.
      apply append_cancel_right in Heq. auto.
  - intros [Hkind Htoken]. unfold rawLog, logPathOf. rewrite Hkind, Htoken. reflexivity.
Qed.

(** X17 on a build. *)
Lemma artifacts_are_distinct_witness :
  NoDup (artifacts Examples.server Examples.now (Examples.buildCall false)).
Proof.
  destruct (artifacts_are_distinct Examples.server Examples.now
              (Examples.buildCall false)) as [Hdiffer _].
  - reflexivity.
  - exact Hdiffer.
Defined.

(** X18 on a build and a test run started at the same instant. *)
Lemma raw_log_identifies_kind_and_token_witness :
  rawLog Examples.server Examples.now (Examples.buildCall false)
  <> rawLog Examples.server Examples.now Examples.testCall.
Proof.
  destruct (raw_log_identifies_kind_and_token Examples.server Examples.now Examples.now
              (Examples.buildCall false) Examples.testCall) as [Hsame _].
  - reflexivity.
  - reflexivity.
  - intros Heq. destruct (Hsame Heq) as [Hkind _]. simpl in Hkind. discriminate Hkind.
Defined.

(** ** The files an invocation writes *)

Section Writes.
Context `{Runtime}.

Lemma processBuildResults_writes this timestamp xcresultPath st :
  exists files,
    written (snd (processBuildResults this timestamp xcresultPath st))
    = written st ++ files
    /\ Forall (fun w =>
                 In (fst w)
                   [path.join [buildLogsDir this; template ["report-"; timestamp; ".json"]];
                    path.join [buildLogsDir this; template ["report-"; timestamp; ".txt"]]])
         files
    /\ (length files <= 2)%nat.
Proof.
  unfold processBuildResults, execAsync, writeFile. unfold_monad.
  repeat case_effect;
    first [ exists []; split; [rewrite app_nil_r; reflexivity|]
          | eexists [_]; split; [reflexivity|]
          | eexists [_; _]; split; [rewrite <- app_assoc; reflexivity|] ];
    (split; [|simpl; lia]);
    repeat (apply List.Forall_cons || apply List.Forall_nil); simpl; auto.
Qed.

Lemma processTestResults_writes this timestamp xcresultPath st :
  exists files,
    written (snd (processTestResults this timestamp xcresultPath st))
    = written st ++ files
    /\ Forall (fun w =>
                 In (fst w)
                   [path.join [buildLogsDir this;
                               template ["test-summary-"; timestamp; ".json"]];
                    path.join [buildLogsDir this; template ["coverage-"; timestamp; ".txt"]]])
         files
    /\ (length files <= 2)%nat.
Proof.
  unfold processTestResults, execAsync, writeFile. unfold_monad.
  repeat case_effect;
    first [ exists []; split; [rewrite app_nil_r; reflexivity|]
          | eexists [_]; split; [reflexivity|]
          | eexists [_; _]; split; [rewrite <- app_assoc; reflexivity|] ];
    (split; [|simpl; lia]);
    repeat (apply List.Forall_cons || apply List.Forall_nil); simpl; auto.
Qed.

(** After a completed child process the invocation writes artifacts other
    than the raw log, and no other file. *)
Lemma completed_writes this now call stdout stderr st :
  exists files,
    written (snd (completed this now call stdout stderr st)) = written st ++ files
    /\ Forall (fun w => In (fst w) (tl (artifacts this now call))) files
    /\ (length files <= 3)%nat.
Proof.
  destruct call; unfold completed, buildCompleted, testCompleted, existsSync, artifacts;
    cbn [tl]; unfold_monad; unfold writeFile at 1.
  - fold (structuredLog this now
            (Build projectPath scheme configuration destination includeWarnings)).
    destruct (bool_decide (_ ∈ unwritable (fs st))); simpl.
    { exists []. rewrite app_nil_r. simpl. auto with arith. }
    destruct (existsPath _ _).
    + match goal with |- context [processBuildResults _ _ _ ?s] =>
        destruct (processBuildResults_writes this (timestampOf now)
                    (bundle now (Build projectPath scheme configuration destination
                                   includeWarnings)) s)
          as (files & Hw & Hin & Hlen);
        destruct (processBuildResults this (timestampOf now)
                    (bundle now (Build projectPath scheme configuration destination
                                   includeWarnings)) s) as [[[]|t] st'] end;
        simpl in *; rewrite Hw, <- app_assoc; eexists; (split; [reflexivity|]);
        (split; [|simpl; lia]);
        (constructor; [left; reflexivity|]);
        (eapply Forall_impl; [exact Hin|]); intros w Hwin; right; exact Hwin.
    + simpl. eexists. split; [reflexivity|]. split; [|simpl; lia].
      repeat constructor.
  - fold (structuredLog this now
            (Test projectPath scheme configuration testIdentifier skipTests destination)).
    destruct (bool_decide (_ ∈ unwritable (fs st))); simpl;
      destruct (existsPath _ _); simpl;
      try match goal with |- context [processTestResults _ _ _ ?s] =>
        destruct (processTestResults_writes this (timestampOf now)
                    (bundle now (Test projectPath scheme configuration testIdentifier
                                   skipTests destination)) s)
          as (files & Hw & Hin & Hlen);
        destruct (processTestResults this (timestampOf now)
                    (bundle now (Test projectPath scheme configuration testIdentifier
                                   skipTests destination)) s) as [[[]|t] st'] end;
      simpl in *.
    all: try (rewrite Hw, <- ?app_assoc; eexists; (split; [reflexivity|]);
              (split; [|simpl; lia]);
              try (apply List.Forall_cons; [left; reflexivity|]);
              (eapply Forall_impl; [exact Hin|]); intros w Hwin; right; exact Hwin).
    + exists []. rewrite app_nil_r. simpl. auto with arith.
    + eexists. split; [reflexivity|]. split; [|simpl; lia]. repeat constructor.
Qed.

(** X19. Whatever the child process and the file system do, the files an
    invocation itself writes are artifacts of that invocation. After a
    completed child process it writes at most the structured log and the
    two extracts, and with a clock text free of slashes none of these is
    the raw log: that file is left to the child process. After a failed
    child process it writes at most one file, the raw log. *)
Theorem invocation_writes_its_artifacts this now call st :
  JS.includes now "/" = false ->
  exists files,
    written (snd (invoke this now call st)) = written st ++ files
    /\ Forall (fun w => In (fst w) (artifacts this now call)) files
    /\ match fst (child this now call st) with
       | Resolved _ _ =>
           Forall (fun w => fst w <> rawLog this now call) files
           /\ (length files <= 3)%nat
       | Rejected _ =>
           Forall (fun w => fst w = rawLog this now call) files
           /\ (length files <= 1)%nat
       end.
Proof.
  intros Hnow. rewrite invoke_child.
  destruct (child this now call st) as [[stdout stderr|error] st1] eqn:Hchild;
    destruct (child_logs _ _ _ _ _ _ Hchild) as [_ Hwritten]; cbn [fst].
  - destruct (completed_writes this now call stdout stderr st1)
      as (files & Hw & Hin & Hlen).
    exists files. rewrite Hw, Hwritten. split; [reflexivity|].
    pose proof (artifacts_differ this now call Hnow) as Hdiffer.
    assert (Hhead : artifacts this now call
                    = rawLog this now call :: tl (artifacts this now call))
      by (destruct call; reflexivity).
    rewrite Hhead in Hdiffer. apply NoDup_cons in Hdiffer as [Hfresh Htail].
    split; [|split].
    + rewrite Hhead. eapply Forall_impl; [exact Hin|]. intros w Hwin. right. exact Hwin.
    + eapply Forall_impl; [exact Hin|]. intros w Hwin Heq. apply Hfresh.
      rewrite <- Heq. apply list_elem_of_In. exact Hwin.
    + exact Hlen.
  - assert (Hraw : In (rawLog this now call) (artifacts this now call))
      by (destruct call; left; reflexivity).
    destruct error as [e|v].
    + destruct (decide (rawLog this now call ∈ unwritable (fs st1))) as [Hlog|Hlog].
      * rewrite onExecError_refused by assumption. exists []. cbn [snd].
        rewrite app_nil_r. simpl. auto.
      * destruct (onExecError_written (rawLog this now call) e st1 Hlog)
          as (st2 & -> & _ & Hw & _).
        exists [(rawLog this now call, errorOutputOf e)]. cbn [snd].
        rewrite Hw, Hwritten. simpl. auto.
    + exists []. cbn [snd onExecError]. unfold_monad. cbn [snd].
      rewrite app_nil_r. simpl. auto.
Qed.

End Writes.

(** X19 on a failed build that leaves a result bundle. *)
Lemma invocation_writes_its_artifacts_witness :
  exists files,
    written (snd (@invoke Examples.failedBuild Examples.server Examples.now
                    (Examples.buildCall false) (Examples.disk [])))
    = written (Examples.disk []) ++ files
    /\ Forall (fun w => In (fst w)
                          (artifacts Examples.server Examples.now
                             (Examples.buildCall false))) files.
Proof.
  destruct (@invocation_writes_its_artifacts Examples.failedBuild Examples.server
              Examples.now (Examples.buildCall false) (Examples.disk []))
    as (files & Hwritten & Hin & _).
  - reflexivity.
  - exists files. split; assumption.
Defined.

(** ** The tool list and the tool handler *)

Lemma optional_string_schema k a :
  match prop k a with None => true | Some v => hasType SString v end
  = isOptionalStringProp k a.
Proof.
  unfold isOptionalStringProp, isStringProp.
  destruct (prop k a) as [[| | | | |]|]; reflexivity.
Qed.

Lemma optional_boolean_schema k a :
  match prop k a with None => true | Some v => hasType SBoolean v end
  = isOptionalBooleanProp k a.
Proof.
  unfold isOptionalBooleanProp. destruct (prop k a) as [[| | | | |]|]; reflexivity.
Qed.

Lemma required_string_schema k a :
  isStringProp k a = bool_decide (is_Some (prop k a)) && isOptionalStringProp k a.
Proof.
  unfold isOptionalStringProp, isStringProp.
  destruct (prop k a) as [[| | | | |]|]; reflexivity.
Qed.

Lemma string_array_schema k a :
  match prop k a with None => true | Some v => hasType (SArray SString) v end
  = match prop k a with
    | None => true
    | Some (JArray items) =>
        forallb (fun t => match typeof t with TString => true | _ => false end) items
    | Some _ => false
    end.
Proof.
  destruct (prop k a) as [[| | | |items|]|]; try reflexivity.
  cbn [hasType]. induction items as [|[| | | | |] items IH]; simpl; auto.
Qed.

Ltac decide_booleans :=
  repeat match goal with b : bool |- _ => destruct b end;
  cbn [andb negb];
  (split; [intros Hx; try discriminate Hx; split; reflexivity
          | intros [Hx Hy]; try discriminate Hx; try discriminate Hy; reflexivity]).

(** X20. The tool list and the tool handler name the same tools: a name is
    answered with MethodNotFound exactly when it is not listed. For a listed
    tool the handler accepts an argument object exactly when the object
    conforms to the listed schema and its destination, which no schema
    lists, is absent or a string. *)
Theorem tool_list_matches_handler :
  (forall name arguments,
     toolInvocation name arguments
     = inl (McpError MethodNotFound ("Unknown tool: " +:+ name))
     <-> ~ In name (map toolName listTools))
  /\ (forall tool a,
        In tool listTools ->
        (exists call, toolInvocation (toolName tool) (Some a) = inr call)
        <-> conforms tool a = true /\ isOptionalStringProp "destination" a = true).
Proof.
  split.
  - intros name arguments. unfold toolInvocation. cbn [map listTools toolName In].
    destruct (String.eqb name "build_project") eqn:Hb.
    { apply String.eqb_eq in Hb. split; [|intros Hn; exfalso; apply Hn; auto].
      destruct (negb _); [discriminate|].
      destruct (_ ≫= _); [|discriminate]. destruct (_ ≫= _); discriminate. }
    destruct (String.eqb name "run_tests") eqn:Ht.
    { apply String.eqb_eq in Ht. split; [|intros Hn; exfalso; apply Hn; auto].
      destruct (negb _); [discriminate|].
      destruct (_ ≫= _); [|discriminate]. destruct (_ ≫= _); discriminate. }
    apply String.eqb_neq in Hb, Ht. split; [|reflexivity].
    intros _ [Hn|[Hn|[]]]; congruence.
  - intros tool a [<-|[<-|[]]]; cbn [toolName].
    + assert (Hguard : (exists call, toolInvocation "build_project" (Some a) = inr call)
                       <-> isBuildOptions (Some a) = true).
      { split.
        - intros [call Hcall]. unfold toolInvocation in Hcall.
          cbn [String.eqb Ascii.eqb] in Hcall.
          destruct (isBuildOptions (Some a)); [reflexivity|discriminate].
        - intros Hok. destruct (build_guard_reads _ Hok) as (p & s & c & d & w & Heq).
          eauto. }
      rewrite Hguard. clear Hguard.
      destruct a as [| | | | |fields];
        try (split; [discriminate | intros [Hx _]; discriminate]).
      unfold conforms, isBuildOptions, isBuildArguments.
      cbn [asObject typeof forallb toolRequired toolProperties propertyType].
      rewrite !optional_string_schema, !optional_boolean_schema, !required_string_schema.
      generalize (bool_decide (is_Some (prop "projectPath" (JObject fields)))).
      generalize (bool_decide (is_Some (prop "scheme" (JObject fields)))).
      generalize (isOptionalStringProp "projectPath" (JObject fields)).
      generalize (isOptionalStringProp "scheme" (JObject fields)).
      generalize (isOptionalStringProp "configuration" (JObject fields)).
      generalize (isOptionalStringProp "destination" (JObject fields)).
      generalize (isOptionalBooleanProp "includeWarnings" (JObject fields)).
      intros. decide_booleans.
    + assert (Hguard : (exists call, toolInvocation "run_tests" (Some a) = inr call)
                       <-> isTestArguments (Some a) = true).
      { split.
        - intros [call Hcall]. unfold toolInvocation in Hcall.
          cbn [String.eqb Ascii.eqb] in Hcall.
          destruct (isTestArguments (Some a)); [reflexivity|discriminate].
        - intros Hok.
          destruct (test_guard_reads _ Hok) as (p & s & c & t & k & d & Heq).
          eauto. }
      rewrite Hguard. clear Hguard.
      destruct a as [| | | | |fields];
        try (split; [discriminate | intros [Hx _]; discriminate]).
      unfold conforms, isTestArguments.
      cbn [asObject typeof forallb toolRequired toolProperties propertyType].
      rewrite string_array_schema.
      rewrite !optional_string_schema, !required_string_schema.
      generalize (bool_decide (is_Some (prop "projectPath" (JObject fields)))).
      generalize (bool_decide (is_Some (prop "scheme" (JObject fields)))).
      generalize (isOptionalStringProp "projectPath" (JObject fields)).
      generalize (isOptionalStringProp "scheme" (JObject fields)).
      generalize (isOptionalStringProp "configuration" (JObject fields)).
      generalize (isOptionalStringProp "destination" (JObject fields)).
      generalize (isOptionalStringProp "testIdentifier" (JObject fields)).
      generalize (match prop "skipTests" (JObject fields) with
                  | None => true
                  | Some (JArray items) =>
                      forallb (fun t => match typeof t with TString => true | _ => false end)
                        items
                  | Some _ => false
                  end).
      intros. decide_booleans.
Qed.

(** ** Successive calls *)

Section Successive.
Context `{Runtime}.

Lemma callTool_returns this now toolName arguments st response this' st' :
  callTool this now toolName arguments st = (Return (response, this'), st') ->
  exists call result,
    toolInvocation toolName arguments = inr call
    /\ invoke this now call st = (Return result, st')
    /\ (response, this') = respond this result.
Proof.
  unfold callTool. destruct (toolInvocation toolName arguments) as [t|call]; [discriminate|].
  unfold_monad. destruct (invoke this now call st) as [[result|t] st2] eqn:Hinvoke;
    [|discriminate].
  intros [= <- <- <-]. exists call, result. auto.
Qed.

(** X21. The pointer is a single slot and the last call wins: of two tool
    calls that return one after the other, the second leaves the pointer at
    its own raw log path, whatever the first left there, and the one listed
    resource is the log of the second; neither call changes the base
    directory or the log directory of the server. *)
Theorem last_call_wins this now toolName arguments st response this1 st1
    now' toolName' arguments' response' this2 st2 :
  callTool this now toolName arguments st = (Return (response, this1), st1) ->
  callTool this1 now' toolName' arguments' st1 = (Return (response', this2), st2) ->
  baseDir this2 = baseDir this
  /\ buildLogsDir this2 = buildLogsDir this
  /\ exists call',
       toolInvocation toolName' arguments' = inr call'
       /\ latestBuildLog this2 = Some (rawLog this now' call')
       /\ forall text,
            files (fs st2) !! rawLog this now' call' = Some text ->
            readResource this2 latestLogUri st2
            = (Return [mkContents latestLogUri "text/plain" text], st2).
Proof.
  intros Hfirst Hsecond.
  apply callTool_returns in Hfirst as (call & result & _ & _ & Hthis1).
  apply callTool_returns in Hsecond as (call' & result' & Hcall' & Hinvoke' & Hthis2).
  injection Hthis1 as _ ->. injection Hthis2 as _ ->. cbn [baseDir buildLogsDir].
  split; [reflexivity|]. split; [reflexivity|].
  exists call'. split; [exact Hcall'|].
  pose proof (invoke_logPath _ _ _ _ _ _ Hinvoke') as Hpath.
  assert (Hsame : rawLog (mkServer (baseDir this) (buildLogsDir this)
                            (Some (logPath result))) now' call'
                  = rawLog this now' call') by reflexivity.
  rewrite Hsame in Hpath. cbn [latestBuildLog]. rewrite Hpath.
  split; [reflexivity|].
  intros text Hfile. apply readResource_latest with (log := rawLog this now' call').
  - reflexivity.
  - apply path_join_truthy.
  - exact Hfile.
Qed.

End Successive.

(** X21 on a build followed by a test run. *)
Lemma last_call_wins_witness :
  exists call',
    toolInvocation "run_tests"
      (Some (JObject [("projectPath", JString "/work/App.xcodeproj");
                      ("scheme", JString "App")]))
    = inr call'
    /\ latestBuildLog
         (mkServer "/srv" "/srv/build-logs"
            (Some "/srv/build-logs/test-2024-05-01T10-21-00-000Z.log"))
       = Some (rawLog Examples.server "2024-05-01T10:21:00.000Z" call').
Proof.
  pose (arguments := Some (JObject [("projectPath", JString "/work/App.xcodeproj");
                                    ("scheme", JString "App")])).
  pose (first := @callTool Examples.failedBuild Examples.server Examples.now
                   "build_project" arguments (Examples.disk [])).
  pose (this1 := mkServer "/srv" "/srv/build-logs" (Some Examples.buildLog)).
  pose (second := @callTool Examples.failedBuild this1 "2024-05-01T10:21:00.000Z"
                    "run_tests" arguments (snd first)).
  pose (response := fun (o : Outcome (ToolResponse * Server)) =>
                      match o with
                      | Return (r, _) => r
                      | Throw _ => mkResponse EmptyString true
                      end).
  destruct (@last_call_wins Examples.failedBuild Examples.server Examples.now
              "build_project" arguments (Examples.disk [])
              (response (fst first)) this1 (snd first)
              "2024-05-01T10:21:00.000Z" "run_tests" arguments
              (response (fst second))
              (mkServer "/srv" "/srv/build-logs"
                 (Some "/srv/build-logs/test-2024-05-01T10-21-00-000Z.log"))
              (snd second))
    as (_ & _ & call' & Hcall & Hlatest & _).
  - vm_compute. reflexivity.
  - vm_compute. reflexivity.
  - exists call'. split; assumption.
Defined.
